(** * ArcForge: the selector-driven scraper, its enrichment step and its sinks

    A shallow embedding of
      - [src/tools/scraper/generic_scraper.py]  (class [GenericScraper]),
      - [src/tools/core/save_strategy.py]       (the file-based strategies),
      - [src/main.py]                           ([main], [get_saver]),
    followed by the properties of the pipeline.

    Python values are modelled as the code has them: [str] as [string],
    a value that is a [str] or [None] as [option string], [int] as [Z],
    an insertion-ordered [dict] as an association list that is updated in
    place, an exception as a constructor of [Exn].  Effects (printing, HTTP
    requests, sleeping, the file system) are threaded through a state and
    error monad over a [World].  The third-party libraries (bs4, requests,
    pandas serialisers, the wall clock) are interfaces the program is
    parameterised by. *)

From Stdlib Require Import String Ascii List ZArith Lia Bool Arith.
From Stdlib Require Import DecimalString DecimalZ.
Import ListNotations.
Open Scope string_scope.

(* ------------------------------------------------------------------ *)
(** ** Python builtins used by the program *)

Module Py.

(** [s.rstrip(c)]: every trailing occurrence of the character goes. *)
Fixpoint rstrip (c : ascii) (s : string) : string :=
  match s with
  | EmptyString => EmptyString
  | String a s' =>
      match rstrip c s' with
      | EmptyString => if Ascii.eqb a c then EmptyString else String a EmptyString
      | r => String a r
      end
  end.

(** [s.startswith(p)] *)
Definition startswith (s p : string) : bool := String.prefix p s.

(** [sub in s] on strings: [sub] occurs somewhere in [s]. *)
Fixpoint contains (sub s : string) : bool :=
  String.prefix sub s
  || match s with
     | EmptyString => false
     | String _ s' => contains sub s'
     end.

(** [str(n)] for an [int]. *)
Definition str_of_int (n : Z) : string := NilZero.string_of_int (Z.to_int n).

(** [range(a, b)] *)
Definition range (a b : Z) : list Z :=
  map (fun i => (a + Z.of_nat i)%Z) (seq 0 (Z.to_nat (b - a))).

(** [x[:n]] on lists. *)
Definition slice_to {A} (n : nat) (l : list A) : list A := firstn n l.

End Py.

(** Exceptions the program can raise. *)
Inductive Exn : Type :=
| ValueError (msg : string)
| KeyError (key : string)
| AttributeError (msg : string)
| FileNotFoundError (path : string).

Inductive Result (A : Type) : Type :=
| Ok (a : A)
| Raise (e : Exn).
Arguments Ok {A} a.
Arguments Raise {A} e.

(** [min(iterable)] raises [ValueError] on an empty iterable (the message
    is CPython's up to 3.11; later versions word it differently). *)
Definition py_min (l : list nat) : Result nat :=
  match l with
  | [] => Raise (ValueError "min() arg is an empty sequence")
  | x :: l' => Ok (fold_left Nat.min l' x)
  end.

(** A [str] or [None]. *)
Definition PyStr : Type := option string.

(* ------------------------------------------------------------------ *)
(** ** Insertion-ordered dictionaries *)

Definition dict (V : Type) : Type := list (string * V).

Definition keys {V} (d : dict V) : list string := map fst d.
Definition values {V} (d : dict V) : list V := map snd d.

Fixpoint dict_get {V} (d : dict V) (k : string) : option V :=
  match d with
  | [] => None
  | (k', v) :: d' => if String.eqb k' k then Some v else dict_get d' k
  end.

(** [d[k] = v]: an existing key keeps its position, a new key goes last. *)
Fixpoint dict_set {V} (d : dict V) (k : string) (v : V) : dict V :=
  match d with
  | [] => [(k, v)]
  | (k', v') :: d' =>
      if String.eqb k' k then (k, v) :: d' else (k', v') :: dict_set d' k v
  end.

(* ------------------------------------------------------------------ *)
(** ** The world: what a run can observe and change *)

Inductive Event : Type :=
| Print (msg : string)
| HttpGet (url : string) (headers : dict string)
| Sleep (seconds : Z).

Record World : Type := mkWorld {
  trace : list Event;       (* everything done so far, oldest first *)
  sent : nat;               (* number of HTTP requests sent so far *)
  dirs : list string;       (* directories that exist *)
  files : dict string       (* files and their contents *)
}.

Definition M (A : Type) : Type := World -> Result A * World.

Definition ret {A} (a : A) : M A := fun w => (Ok a, w).

Definition raise {A} (e : Exn) : M A := fun w => (Raise e, w).

Definition bind {A B} (m : M A) (k : A -> M B) : M B :=
  fun w =>
    match m w with
    | (Ok a, w') => k a w'
    | (Raise e, w') => (Raise e, w')
    end.

Definition lift {A} (r : Result A) : M A := fun w => (r, w).

Notation "x <- c1 ;; c2" := (bind c1 (fun x => c2))
  (at level 61, c1 at next level, right associativity).
Notation "c1 ;; c2" := (bind c1 (fun _ => c2))
  (at level 61, right associativity).

Definition emit (e : Event) : M unit :=
  fun w => (Ok tt, mkWorld (trace w ++ [e]) (sent w) (dirs w) (files w)).

Definition print (msg : string) : M unit := emit (Print msg).

(** [time.sleep(n)] *)
Definition sleep (n : Z) : M unit := emit (Sleep n).

(** A [for] loop that threads an accumulator. *)
Fixpoint foldM {A B} (f : A -> B -> M A) (l : list B) (a : A) : M A :=
  match l with
  | [] => ret a
  | x :: l' => a' <- f a x ;; foldM f l' a'
  end.

(** Element-wise application, first element first. *)
Fixpoint mapM {A B} (f : A -> M B) (l : list A) : M (list B) :=
  match l with
  | [] => ret []
  | x :: l' => y <- f x ;; ys <- mapM f l' ;; ret (y :: ys)
  end.

(** The requests of a trace, in the order they were sent. *)
Fixpoint requested (t : list Event) : list string :=
  match t with
  | [] => []
  | HttpGet url _ :: t' => url :: requested t'
  | _ :: t' => requested t'
  end.

(** The pauses of a trace. *)
Fixpoint slept (t : list Event) : list Z :=
  match t with
  | [] => []
  | Sleep n :: t' => n :: slept t'
  | _ :: t' => slept t'
  end.

(* ------------------------------------------------------------------ *)
(** ** Library interfaces *)

(** bs4: a parsed document, its tags, CSS selection ([soup.select]),
    [tag.get(attr)] and [tag.get_text(strip=True)].  A [Tag] (and so a
    [BeautifulSoup] object) is always truthy. *)
Class Bs4 : Type := {
  Soup : Type;
  Tag : Type;
  BeautifulSoup : string -> Soup;
  select : Soup -> string -> list Tag;
  tag_get : Tag -> string -> PyStr;
  get_text_strip : Tag -> string
}.

(** [soup.select_one(sel)]: the first tag [select] finds, or [None]. *)
Definition select_one `{Bs4} (soup : Soup) (selector : string) : option Tag :=
  hd_error (select soup selector).

(** The same library with another text content for the tags. *)
Definition with_text (B : Bs4) (g : @Tag B -> string) : Bs4 :=
  {| Soup := @Soup B; Tag := @Tag B; BeautifulSoup := @BeautifulSoup B;
     select := @select B; tag_get := @tag_get B; get_text_strip := g |}.

(** What [requests.get] comes back with: a response, or one of the
    [RequestException]s the transport raises (connection error, timeout,
    invalid URL, ...). *)
Inductive HttpResult : Type :=
| Response (status_code : Z) (reason : string) (text : string)
| RequestException (msg : string).

(** The network: the outcome of the [n]-th request of the run, sent to
    [url].  The index lets the same URL answer differently over time. *)
Class Requests : Type := {
  requests_get : nat -> string -> HttpResult
}.

(** [response.raise_for_status()]: an [HTTPError] (a [RequestException])
    for a 4xx or 5xx status, nothing otherwise. *)
Definition raise_for_status (url : string) (status_code : Z) (reason : string)
  : option string :=
  if ((400 <=? status_code) && (status_code <? 500))%Z then
    Some (Py.str_of_int status_code ++ " Client Error: " ++ reason
            ++ " for url: " ++ url)
  else if ((500 <=? status_code) && (status_code <? 600))%Z then
    Some (Py.str_of_int status_code ++ " Server Error: " ++ reason
            ++ " for url: " ++ url)
  else None.

Definition http_get `{Requests} (url : string) (headers : dict string)
  : M HttpResult :=
  fun w =>
    (Ok (requests_get (sent w) url),
     mkWorld (trace w ++ [HttpGet url headers]) (S (sent w)) (dirs w) (files w)).

(* ------------------------------------------------------------------ *)
(** ** [GenericScraper] *)

Record GenericScraper : Type := mkScraper {
  base_url : string;
  start_page : Z;
  end_page : Z;
  page_param : string;
  link_base : string;
  pagination_enabled : bool;
  headers : dict string
}.

Definition user_agent : string :=
  "Mozilla/5.0 (Windows NT 10.0; Win64; x64) AppleWebKit/537.36 (KHTML, like Gecko) Chrome/114.0.0.0 Safari/537.36".

(** Defaults of [__init__]'s keyword arguments. *)
Definition default_page_param : string := "?page=".

(** [GenericScraper.__init__] *)
Definition GenericScraper_init (base_url : string) (start_page end_page : Z)
    (page_param link_base : string) (pagination_enabled : bool)
  : GenericScraper :=
  {| base_url := Py.rstrip "/" base_url;
     start_page := start_page;
     end_page := end_page;
     page_param := page_param;
     link_base := Py.rstrip "/" link_base;
     pagination_enabled := pagination_enabled;
     headers := [("User-Agent", user_agent)] |}.

Section Scraper.

Context `{B : Bs4} `{N : Requests}.

(** [GenericScraper.request_page]: the [try] body runs up to the first
    [RequestException]; the handler prints and returns [None]. *)
Definition request_page (self : GenericScraper) (url : string)
  : M (option Soup) :=
  print ("Requesting: " ++ url) ;;
  response <- http_get url (headers self) ;;
  match response with
  | RequestException e =>
      print ("Request failed: " ++ url ++ " - " ++ e) ;;
      ret None
  | Response status_code reason text =>
      match raise_for_status url status_code reason with
      | Some e =>
          print ("Request failed: " ++ url ++ " - " ++ e) ;;
          ret None
      | None =>
          sleep 1 ;;
          ret (Some (BeautifulSoup text))
      end
  end.

(** The values one selector extracts from a page (the body of the loop
    over [field_selectors.items()]). *)
Definition extract_field (soup : Soup) (selector : string) : list PyStr :=
  let elements := select soup selector in
  if Py.contains "[href]" selector then
    map (fun el => tag_get el "href") elements
  else if Py.contains "[src]" selector then
    map (fun el => tag_get el "src") elements
  else
    map (fun el => Some (get_text_strip el)) elements.

(** [raw_data], filled key by key. *)
Definition extract_fields (soup : Soup) (field_selectors : dict string)
  : dict (list PyStr) :=
  fold_left
    (fun raw_data kv => dict_set raw_data (fst kv) (extract_field soup (snd kv)))
    field_selectors [].

(** [{key: [] for key in field_selectors}] *)
Definition empty_field_data (field_selectors : dict string)
  : dict (list PyStr) :=
  fold_left (fun d key => dict_set d key []) (keys field_selectors) [].

(** The pages the loop runs over: page numbers, or a single [None]. *)
Definition pages (self : GenericScraper) : list (option Z) :=
  if pagination_enabled self then
    map Some (Py.range (start_page self) (end_page self + 1))
  else [None].

(** [str(page_num)] where [page_num] may be [None]. *)
Definition str_of_page (page_num : option Z) : string :=
  match page_num with
  | None => "None"
  | Some p => Py.str_of_int p
  end.

Definition page_url (self : GenericScraper) (page_num : option Z) : string :=
  match page_num with
  | None => base_url self
  | Some p => base_url self ++ page_param self ++ Py.str_of_int p
  end.

(** The URLs the listing loop requests, in order. *)
Definition page_urls (self : GenericScraper) : list string :=
  map (page_url self) (pages self).

Definition truncation_warning (page_num : option Z) : string :=
  "[Warning] Truncating mismatched field lengths on page "
    ++ str_of_page page_num.

(** [field_data[key].extend(raw_data[key][:min_len])]: both lookups raise
    [KeyError] on a missing key. *)
Definition extend_step (raw_data : dict (list PyStr)) (min_len : nat)
    (fd : dict (list PyStr)) (key : string) : M (dict (list PyStr)) :=
  match dict_get raw_data key with
  | None => raise (KeyError key)
  | Some lst =>
      match dict_get fd key with
      | None => raise (KeyError key)
      | Some old => ret (dict_set fd key (old ++ Py.slice_to min_len lst)%list)
      end
  end.

(** [for key in field_data: field_data[key].extend(raw_data[key][:min_len])] *)
Definition extend_fields (raw_data : dict (list PyStr)) (min_len : nat)
    (field_data : dict (list PyStr)) : M (dict (list PyStr)) :=
  foldM (extend_step raw_data min_len) (keys field_data) field_data.

(** Lines 114-119: align the page's sequences and append them. *)
Definition merge_page (page_num : option Z) (raw_data : dict (list PyStr))
    (field_data : dict (list PyStr)) : M (dict (list PyStr)) :=
  min_len <- lift (py_min (map (@length PyStr) (values raw_data))) ;;
  (if existsb (fun lst => negb (Nat.eqb (length lst) min_len)) (values raw_data)
   then print (truncation_warning page_num)
   else ret tt) ;;
  extend_fields raw_data min_len field_data.

(** One iteration of the loop over [pages]. *)
Definition scrape_page (self : GenericScraper) (field_selectors : dict string)
    (field_data : dict (list PyStr)) (page_num : option Z)
  : M (dict (list PyStr)) :=
  soup <- request_page self (page_url self page_num) ;;
  match soup with
  | None => ret field_data
  | Some soup =>
      merge_page page_num (extract_fields soup field_selectors) field_data
  end.

(** [GenericScraper.scrape_listing_data] *)
Definition scrape_listing_data (self : GenericScraper)
    (field_selectors : dict string) : M (dict (list PyStr)) :=
  foldM (scrape_page self field_selectors) (pages self)
    (empty_field_data field_selectors).

(** The loop over [selectors] of [get_value_from_product_page];
    [if attr] is false for [None] and for the empty string. *)
Fixpoint first_selector_match (soup : Soup) (selectors : list string)
    (attr : PyStr) : PyStr :=
  match selectors with
  | [] => None
  | selector :: rest =>
      match select_one soup selector with
      | Some tag =>
          match attr with
          | Some (String a s) => tag_get tag (String a s)
          | _ => Some (get_text_strip tag)
          end
      | None => first_selector_match soup rest attr
      end
  end.

(** The URL a link value resolves to. *)
Definition full_url (self : GenericScraper) (url : string) : string :=
  if Py.startswith url "http" then url else link_base self ++ url.

(** [GenericScraper.get_value_from_product_page]; [url] is a cell of the
    link column, so a [str] or [None], and [None] has no [startswith]. *)
Definition get_value_from_product_page (self : GenericScraper) (url : PyStr)
    (selectors : list string) (attr : PyStr) : M PyStr :=
  match url with
  | None =>
      raise (AttributeError "'NoneType' object has no attribute 'startswith'"%string)
  | Some url =>
      soup <- request_page self (full_url self url) ;;
      match soup with
      | None => ret None
      | Some soup => ret (first_selector_match soup selectors attr)
      end
  end.

End Scraper.

(* ------------------------------------------------------------------ *)
(** ** Data frames *)

(** A frame of object columns over a default [RangeIndex]. *)
Record DataFrame : Type := mkFrame {
  nrows : nat;
  columns : dict (list PyStr)
}.

(** [GenericScraper.create_dataframe], i.e. [pd.DataFrame(data_dict)]:
    columns in dictionary order, and a [ValueError] when the lists differ
    in length. *)
Definition create_dataframe (data_dict : dict (list PyStr)) : M DataFrame :=
  match data_dict with
  | [] => ret (mkFrame 0 [])
  | (_, v) :: rest =>
      if forallb (fun c => Nat.eqb (length (snd c)) (length v)) rest
      then ret (mkFrame (length v) data_dict)
      else raise (ValueError "All arrays must be of the same length")
  end.

(** [df[name]] *)
Definition df_getitem (df : DataFrame) (name : string) : M (list PyStr) :=
  match dict_get (columns df) name with
  | Some col => ret col
  | None => raise (KeyError name)
  end.

(** [df[name] = series] for a series over the frame's own index. *)
Definition df_setitem (df : DataFrame) (name : string) (series : list PyStr)
  : DataFrame :=
  mkFrame (nrows df) (dict_set (columns df) name series).

Section Enrich.

Context `{B : Bs4} `{N : Requests}.

(** [GenericScraper.enrich_dataframe_column_from_pages]: [Series.apply]
    calls the function on the cells from the first row to the last. *)
Definition enrich_dataframe_column_from_pages (self : GenericScraper)
    (df : DataFrame) (column_name : string) (selectors : list string)
    (attr : PyStr) (link_column : string) : M DataFrame :=
  links <- df_getitem df link_column ;;
  series <- mapM (fun url => get_value_from_product_page self url selectors attr)
                 links ;;
  ret (df_setitem df column_name series).

End Enrich.

(* ------------------------------------------------------------------ *)
(** ** Save strategies *)

Record DateTime : Type := mkDateTime {
  year : nat; month : nat; day : nat;
  hour : nat; minute : nat; second : nat
}.

Definition digit (n : nat) : ascii := ascii_of_nat (48 + n mod 10).

(** [%m], [%d], [%H], [%M]: two digits, zero-padded. *)
Definition two_digits (n : nat) : string :=
  String (digit (n / 10)) (String (digit n) EmptyString).

(** [%Y]: four digits, zero-padded. *)
Definition four_digits (n : nat) : string :=
  String (digit (n / 1000)) (String (digit (n / 100))
    (String (digit (n / 10)) (String (digit n) EmptyString))).

(** [now.strftime("%Y%m%d_%H%M")] *)
Definition strftime_Ymd_HM (now : DateTime) : string :=
  four_digits (year now) ++ two_digits (month now) ++ two_digits (day now)
    ++ "_" ++ two_digits (hour now) ++ two_digits (minute now).

(** [p[:p.rfind('/') + 1]] *)
Fixpoint upto_last_slash (p : string) : string :=
  match p with
  | EmptyString => EmptyString
  | String c p' =>
      if Py.contains "/" p' then String c (upto_last_slash p')
      else if Ascii.eqb c "/" then String c EmptyString
      else EmptyString
  end.

Fixpoint all_slashes (s : string) : bool :=
  match s with
  | EmptyString => true
  | String c s' => Ascii.eqb c "/" && all_slashes s'
  end.

(** [os.path.dirname] (posixpath) *)
Definition dirname (p : string) : string :=
  let head := upto_last_slash p in
  if all_slashes head then head else Py.rstrip "/" head.

(** The directory itself preceded by its ancestors, outermost first:
    [pre] is the part of the path already read. *)
Fixpoint dir_chain (pre : string) (rest : string) : list string :=
  match rest with
  | EmptyString => [pre]
  | String c rest' =>
      if Ascii.eqb c "/" then pre :: dir_chain (pre ++ "/") rest'
      else dir_chain (pre ++ String c EmptyString) rest'
  end.

Definition dir_exists (ds : list string) (d : string) : bool :=
  existsb (String.eqb d) ds.

Definition add_dir (ds : list string) (d : string) : list string :=
  if dir_exists ds d then ds else (ds ++ [d])%list.

(** [os.makedirs(d, exist_ok=True)]: the directory and every missing
    ancestor are created; what exists already is left alone. *)
Definition makedirs (d : string) : M unit :=
  fun w =>
    (Ok tt,
     mkWorld (trace w) (sent w) (fold_left add_dir (dir_chain "" d) (dirs w))
             (files w)).

(** Writing a file: its directory has to exist (the working directory,
    written [""], always does). *)
Definition write_file (path content : string) : M unit :=
  fun w =>
    if dir_exists ("" :: dirs w) (dirname path) then
      (Ok tt, mkWorld (trace w) (sent w) (dirs w) (dict_set (files w) path content))
    else (Raise (FileNotFoundError path), w).

(** The wall clock, read after a given history, and the serialisers of
    pandas, which may refuse a frame. *)
Class Platform : Type := {
  datetime_now : list Event -> DateTime;
  to_csv : DataFrame -> Result string;
  to_json : DataFrame -> Result string;
  to_xml : DataFrame -> Result string
}.

Inductive SaveStrategy : Type := CsvStrategy | JsonStrategy | XmlStrategy.

Section Save.

Context `{P : Platform}.

(** [_timestamp], the same method in the three classes. *)
Definition _timestamp : M string :=
  fun w => (Ok (strftime_Ymd_HM (datetime_now (trace w))), w).

(** [CsvStrategy.save] *)
Definition CsvStrategy_save (df : DataFrame) (name : string) : M unit :=
  ts <- _timestamp ;;
  let path := "outputs/csv/" ++ name ++ "_" ++ ts ++ ".csv" in
  makedirs (dirname path) ;;
  content <- lift (to_csv df) ;;
  write_file path content ;;
  print ("✅ Saved CSV to " ++ path).

(** [JsonStrategy.save] *)
Definition JsonStrategy_save (df : DataFrame) (name : string) : M unit :=
  ts <- _timestamp ;;
  let path := "outputs/json/" ++ name ++ "_" ++ ts ++ ".json" in
  makedirs (dirname path) ;;
  content <- lift (to_json df) ;;
  write_file path content ;;
  print ("✅ Saved JSON to " ++ path).

(** [XmlStrategy.save] *)
Definition XmlStrategy_save (df : DataFrame) (name : string) : M unit :=
  ts <- _timestamp ;;
  let path := "outputs/xml/" ++ name ++ "_" ++ ts ++ ".xml" in
  makedirs (dirname path) ;;
  content <- lift (to_xml df) ;;
  write_file path content ;;
  print ("✅ Saved XML to " ++ path).

(** Dynamic dispatch of [saver.save(df, name)]. *)
Definition save (saver : SaveStrategy) (df : DataFrame) (name : string)
  : M unit :=
  match saver with
  | CsvStrategy => CsvStrategy_save df name
  | JsonStrategy => JsonStrategy_save df name
  | XmlStrategy => XmlStrategy_save df name
  end.

(** The serialiser a strategy uses. *)
Definition serialiser (saver : SaveStrategy) : DataFrame -> Result string :=
  match saver with
  | CsvStrategy => to_csv
  | JsonStrategy => to_json
  | XmlStrategy => to_xml
  end.

End Save.

(** The per-format directory and the extension of a strategy. *)
Definition format_dir (saver : SaveStrategy) : string :=
  match saver with
  | CsvStrategy => "outputs/csv"
  | JsonStrategy => "outputs/json"
  | XmlStrategy => "outputs/xml"
  end.

Definition format_ext (saver : SaveStrategy) : string :=
  match saver with
  | CsvStrategy => "csv"
  | JsonStrategy => "json"
  | XmlStrategy => "xml"
  end.

(** The path a strategy writes to at a given time. *)
Definition output_path (saver : SaveStrategy) (name : string) (now : DateTime)
  : string :=
  format_dir saver ++ "/" ++ name ++ "_" ++ strftime_Ymd_HM now
    ++ "." ++ format_ext saver.

(** The specification's file name, [{name}_{YYYYMMDDHHmm}.{ext}]: the
    twelve digits in one run. *)
Definition spec_timestamp (now : DateTime) : string :=
  four_digits (year now) ++ two_digits (month now) ++ two_digits (day now)
    ++ two_digits (hour now) ++ two_digits (minute now).

Definition spec_output_path (saver : SaveStrategy) (name : string)
    (now : DateTime) : string :=
  format_dir saver ++ "/" ++ name ++ "_" ++ spec_timestamp now
    ++ "." ++ format_ext saver.

(* ------------------------------------------------------------------ *)
(** ** [main] *)

(** The loaded configuration.  Keys read with [config[...]] are fields;
    keys read with [config.get(..., default)] are optional, and so is
    [enrich_selectors], which is only read when enrichment is on. *)
Record Config : Type := mkConfig {
  cfg_base_url : string;
  cfg_start_page : Z;
  cfg_end_page : Z;
  cfg_link_base : string;
  cfg_pagination : option bool;
  cfg_field_selectors : dict string;
  cfg_enrich : option bool;
  cfg_enrich_column : option string;
  cfg_enrich_selectors : option (list string);
  cfg_save_strategy : string;
  cfg_output_name : string
}.

(** [config.get(key, default)] *)
Definition get_default {A} (o : option A) (default : A) : A :=
  match o with Some a => a | None => default end.

(** [get_saver] *)
Definition get_saver (strategy : string) : M SaveStrategy :=
  if String.eqb strategy "csv" then ret CsvStrategy
  else if String.eqb strategy "json" then ret JsonStrategy
  else if String.eqb strategy "xml" then ret XmlStrategy
  else raise (ValueError ("Unsupported save strategy: " ++ strategy)).

(** The strategy names [get_saver] accepts. *)
Definition supported (strategy : string) : bool :=
  String.eqb strategy "csv" || String.eqb strategy "json"
  || String.eqb strategy "xml".

Section Main.

Context `{B : Bs4} `{N : Requests} `{P : Platform}.

(** [main], from the loaded configuration on. *)
Definition main (config : Config) : M unit :=
  let scraper :=
    GenericScraper_init (cfg_base_url config) (cfg_start_page config)
      (cfg_end_page config) default_page_param (cfg_link_base config)
      (get_default (cfg_pagination config) false) in
  print "📰 Scraping listing page..." ;;
  data <- scrape_listing_data scraper (cfg_field_selectors config) ;;
  df <- create_dataframe data ;;
  df <- (if get_default (cfg_enrich config) false then
           print "📄 Enriching with full article content..." ;;
           selectors <- match cfg_enrich_selectors config with
                        | Some l => ret l
                        | None => raise (KeyError "enrich_selectors")
                        end ;;
           enrich_dataframe_column_from_pages scraper df
             (get_default (cfg_enrich_column config) "content")
             selectors None "link"
         else ret df) ;;
  print ("✅ Extracted " ++ Py.str_of_int (Z.of_nat (nrows df)) ++ " records") ;;
  saver <- get_saver (cfg_save_strategy config) ;;
  save saver df (cfg_output_name config).

End Main.

(* ------------------------------------------------------------------ *)
(** ** Fixtures: a small document model and a scripted network *)

Module Fixture.

Record FTag : Type := mkTag { f_attrs : dict string; f_text : string }.

(** A parsed page: for each selector, the tags it matches, in document
    order. *)
Definition FSoup : Type := dict (list FTag).

Definition f_select (soup : FSoup) (selector : string) : list FTag :=
  get_default (dict_get soup selector) [].

(** A library over fixture pages; [parse] maps a body to its page. *)
Definition bs4 (parse : string -> FSoup) : Bs4 :=
  {| Soup := FSoup; Tag := FTag; BeautifulSoup := parse;
     select := f_select;
     tag_get := fun t a => dict_get (f_attrs t) a;
     get_text_strip := f_text |}.

(** A network that answers by URL and refuses every other connection. *)
Definition net (table : dict HttpResult) : Requests :=
  {| requests_get := fun _ url =>
       get_default (dict_get table url)
         (RequestException "Connection refused") |}.

Definition platform (now : DateTime) : Platform :=
  {| datetime_now := fun _ => now;
     to_csv := fun _ => Ok "csv";
     to_json := fun _ => Ok "json";
     to_xml := fun _ => Ok "xml" |}.

Definition w0 : World := mkWorld [] 0 [] [].

Definition a (href : string) (text : string) : FTag :=
  mkTag [("href", href)] text.
Definition h2 (text : string) : FTag := mkTag [] text.

(** A listing page with five titles, five links, three images (the last
    without [src]) and a label inside a link. *)
Definition listing : FSoup :=
  [("h2.title", [h2 "t1"; h2 "t2"; h2 "t3"; h2 "t4"; h2 "t5"]);
   ("a.item[href]", [a "/d1" "one"; a "http://y/d2" "two"; a "/d3" "three";
                     a "/d4" "four"; a "/d5" "five"]);
   ("img.pic[src]", [mkTag [("src", "1.png")] ""; mkTag [("src", "2.png")] "";
                     mkTag [] ""]);
   ("a.item[href] span", [h2 "label"])].

Definition detail (body : string) : FSoup :=
  [("article p", [h2 body; h2 "second paragraph"]);
   ("div.body", [h2 "fallback"])].

Definition parse (text : string) : FSoup :=
  if String.eqb text "LISTING" then listing
  else if String.eqb text "EMPTY" then []
  else detail text.

Definition table : dict HttpResult :=
  [("http://x/list", Response 200 "OK" "LISTING");
   ("http://x/d1", Response 200 "OK" "first");
   ("http://y/d2", Response 404 "Not Found" "");
   ("http://x/d3", Response 200 "OK" "EMPTY");
   ("http://x/moved", Response 304 "Not Modified" "cached");
   ("http://x/list?page=12", Response 200 "OK" "LISTING")].

Definition fields : dict string :=
  [("title", "h2.title"); ("link", "a.item[href]"); ("image", "img.pic[src]")].

Definition scraper : GenericScraper :=
  GenericScraper_init "http://x/list" 1 1 default_page_param "http://x/" false.

Definition frame : DataFrame :=
  mkFrame 3 [("title", [Some "t1"; Some "t2"; Some "t3"]);
             ("link", [Some "/d1"; Some "http://y/d2"; Some "/d3"])].

(** A frame whose second link is missing, as the extractor leaves it for
    a tag without [href]. *)
Definition frame_none : DataFrame :=
  mkFrame 3 [("title", [Some "t1"; Some "t2"; Some "t3"]);
             ("link", [Some "/d1"; None; Some "/d3"])].

Definition selectors : list string := ["h1.missing"; "article p"; "div.body"].

(** The same scraper with pagination over pages 12 and 13. *)
Definition paged : GenericScraper :=
  GenericScraper_init "http://x/list" 12 13 default_page_param "http://x/" true.

Definition now : DateTime := mkDateTime 2026 11 3 10 5 42.

Definition config (strategy : string) : Config :=
  {| cfg_base_url := "http://x/list";
     cfg_start_page := 1; cfg_end_page := 1;
     cfg_link_base := "http://x";
     cfg_pagination := Some false;
     cfg_field_selectors := [("title", "h2.title"); ("link", "a.item[href]")];
     cfg_enrich := None; cfg_enrich_column := None;
     cfg_enrich_selectors := None;
     cfg_save_strategy := strategy;
     cfg_output_name := "run" |}.

End Fixture.

(* ------------------------------------------------------------------ *)
(** ** Vocabulary of the properties *)

(** The statuses [raise_for_status] raises on. *)
Definition is_http_error (status_code : Z) : bool :=
  ((400 <=? status_code) && (status_code <? 600))%Z.

(** What [request_page] makes of the outcome of its request. *)
Definition page_of_response `{Bs4} (r : HttpResult) : option Soup :=
  match r with
  | Response status_code _ text =>
      if is_http_error status_code then None else Some (BeautifulSoup text)
  | RequestException _ => None
  end.

Definition is_2xx (status_code : Z) : bool :=
  ((200 <=? status_code) && (status_code <? 300))%Z.

(** What [request_page] does once the outcome of its request is known:
    report the failure, or pause. *)
Definition response_events (url : string) (r : HttpResult) : list Event :=
  match r with
  | RequestException e => [Print ("Request failed: " ++ url ++ " - " ++ e)]
  | Response status_code reason _ =>
      match raise_for_status url status_code reason with
      | Some e => [Print ("Request failed: " ++ url ++ " - " ++ e)]
      | None => [Sleep 1]
      end
  end.

(** The world after [request_page] has run on [url]. *)
Definition after_request `{Requests} (self : GenericScraper) (url : string)
    (w : World) : World :=
  mkWorld
    (trace w ++ Print ("Requesting: " ++ url) :: HttpGet url (headers self)
       :: response_events url (requests_get (sent w) url))
    (S (sent w)) (dirs w) (files w).

(** The keys of a dictionary literal are distinct. *)
Fixpoint distinct (l : list string) : bool :=
  match l with
  | [] => true
  | k :: l' => negb (existsb (String.eqb k) l') && distinct l'
  end.

(** The sequences of a page differ in length. *)
Definition mismatched (raw_data : dict (list PyStr)) : Prop :=
  exists l1 l2,
    In l1 (values raw_data) /\ In l2 (values raw_data) /\ length l1 <> length l2.

(** The value taken from a matched tag: the attribute when [attr] is a
    non-empty name, the text otherwise. *)
Definition tag_value `{Bs4} (tag : Tag) (attr : PyStr) : PyStr :=
  match attr with
  | Some (String a s) => tag_get tag (String a s)
  | _ => Some (get_text_strip tag)
  end.

(** The cell enrichment computes for a link when its request is the
    [n]-th of the run. *)
Definition enriched_cell `{Bs4} `{Requests} (self : GenericScraper)
    (selectors : list string) (attr : PyStr) (n : nat) (link : string) : PyStr :=
  match page_of_response (requests_get n (full_url self link)) with
  | None => None
  | Some soup => first_selector_match soup selectors attr
  end.

(** The cells enrichment computes for a column of links when the request
    of the first link is the [n]-th of the run. *)
Fixpoint enriched_cells `{Bs4} `{Requests} (self : GenericScraper)
    (selectors : list string) (attr : PyStr) (n : nat) (links : list string)
  : list PyStr :=
  match links with
  | [] => []
  | link :: rest =>
      enriched_cell self selectors attr n link
        :: enriched_cells self selectors attr (S n) rest
  end.

(** The message of the [AttributeError] a [None] link raises. *)
Definition none_has_no_startswith : string :=
  "'NoneType' object has no attribute 'startswith'".

(** The cell of a column at a row. *)
Definition cell (df : DataFrame) (column : string) (i : nat) : option PyStr :=
  match dict_get (columns df) column with
  | Some col => nth_error col i
  | None => None
  end.

(** Every column has one cell per row. *)
Definition well_formed (df : DataFrame) : bool :=
  forallb (fun c => Nat.eqb (length (snd c)) (nrows df)) (columns df).

(** The columns of a frame other than [name], in order. *)
Definition other_columns (df : DataFrame) (name : string) : dict (list PyStr) :=
  filter (fun c => negb (String.eqb (fst c) name)) (columns df).

(** The Pager as the specification words it, on the configured base URL. *)
Definition spec_page_urls (base_url : string) (start_page end_page : Z)
    (page_param : string) (pagination_enabled : bool) : list string :=
  if pagination_enabled then
    map (fun i => base_url ++ page_param
                    ++ Py.str_of_int (start_page + Z.of_nat i))
        (seq 0 (Z.to_nat (end_page - start_page + 1)))
  else [base_url].

(** A string of [k] slashes. *)
Fixpoint slashes (k : nat) : string :=
  match k with
  | O => EmptyString
  | S k' => String "/" (slashes k')
  end.

Fixpoint last_char (s : string) : option ascii :=
  match s with
  | EmptyString => None
  | String c EmptyString => Some c
  | String _ s' => last_char s'
  end.

(** The part of [main] that precedes the choice of the saver. *)
Definition scrape_and_enrich `{Bs4} `{Requests} (config : Config) : M DataFrame :=
  let scraper :=
    GenericScraper_init (cfg_base_url config) (cfg_start_page config)
      (cfg_end_page config) default_page_param (cfg_link_base config)
      (get_default (cfg_pagination config) false) in
  print "📰 Scraping listing page..." ;;
  data <- scrape_listing_data scraper (cfg_field_selectors config) ;;
  df <- create_dataframe data ;;
  (if get_default (cfg_enrich config) false then
     print "📄 Enriching with full article content..." ;;
     selectors <- match cfg_enrich_selectors config with
                  | Some l => ret l
                  | None => raise (KeyError "enrich_selectors")
                  end ;;
     enrich_dataframe_column_from_pages scraper df
       (get_default (cfg_enrich_column config) "content")
       selectors None "link"
   else ret df).

(** The common body of the three [save] methods once the path is known:
    create the directory, serialise, write, report. *)
Definition save_to (path : string) (serialised : Result string) (msg : string)
  : M unit :=
  makedirs (dirname path) ;;
  content <- lift serialised ;;
  write_file path content ;;
  print msg.

(** The message a strategy prints after writing. *)
Definition saved_message (saver : SaveStrategy) (path : string) : string :=
  match saver with
  | CsvStrategy => "✅ Saved CSV to " ++ path
  | JsonStrategy => "✅ Saved JSON to " ++ path
  | XmlStrategy => "✅ Saved XML to " ++ path
  end.

(** Two times in the same minute. *)
Definition same_minute (a b : DateTime) : Prop :=
  year a = year b /\ month a = month b /\ day a = day b
  /\ hour a = hour b /\ minute a = minute b.

(** A computation that only adds to the trace and leaves the file system
    alone. *)
Definition network_only {A} (m : M A) : Prop :=
  forall w, exists t,
    trace (snd (m w)) = (trace w ++ t)%list
    /\ dirs (snd (m w)) = dirs w /\ files (snd (m w)) = files w.

(** A run that stops with an error before any request is sent. *)
Definition aborts_before_network {A} (m : M A) (w : World) : Prop :=
  (exists e, fst (m w) = Raise e)
  /\ requested (trace (snd (m w))) = requested (trace w).

(* ------------------------------------------------------------------ *)
(** ** [tools/core/pipeline_factory.py] *)

(** A [ToolPipeline]: the scrape as a thunk, the scraper and the strategy.
    The strategy is one of the file strategies. *)
Record ToolPipeline : Type := mkPipeline {
  scrape_func : M (dict (list PyStr));
  pl_scraper : GenericScraper;
  pl_strategy : SaveStrategy
}.

Section Pipeline.

Context `{B : Bs4} `{N : Requests} `{P : Platform}.

(** [ToolPipelineFactory.create_pipeline] *)
Definition create_pipeline (scraper : GenericScraper) (fields : dict string)
    (strategy : SaveStrategy) : ToolPipeline :=
  {| scrape_func := scrape_listing_data scraper fields;
     pl_scraper := scraper;
     pl_strategy := strategy |}.

(** [ToolPipeline.run] *)
Definition ToolPipeline_run (self : ToolPipeline) (enrich : bool) (name : string)
  : M unit :=
  data <- scrape_func self ;;
  df <- create_dataframe data ;;
  df <- (if enrich then
           enrich_dataframe_column_from_pages (pl_scraper self) df "content"
             ["article p"] None "link"
         else ret df) ;;
  save (pl_strategy self) df name.

End Pipeline.

(* ------------------------------------------------------------------ *)
(** ** [tools/datamanager/saver.py] *)

(** The default of [SqliteStrategy.__init__]'s [db_path]. *)
Definition default_db_path : string := "outputs/db/data.db".

(** [SqliteStrategy.__init__]: the object is its [db_path]. *)
Definition SqliteStrategy_init (db_path : string) : M string :=
  makedirs (dirname db_path) ;;
  ret db_path.

(** The strategies [create_saver] chooses from. *)
Inductive Strategy : Type :=
| FileStrategy (saver : SaveStrategy)
| SqliteStrategy (db_path : string).

(** [create_saver]: the dictionary literal builds the four strategies, in
    the order written, before the lookup; a strategy object is truthy. *)
Definition create_saver (format : string) : M Strategy :=
  sqlite <- SqliteStrategy_init default_db_path ;;
  let strategy_map :=
    [("csv", FileStrategy CsvStrategy);
     ("json", FileStrategy JsonStrategy);
     ("sqlite", SqliteStrategy sqlite);
     ("xml", FileStrategy XmlStrategy)] in
  match dict_get strategy_map format with
  | Some strategy => ret strategy
  | None => raise (ValueError ("Unknown save format: " ++ format))
  end.

(* ------------------------------------------------------------------ *)
(** ** Vocabulary of the further properties *)

(** The least sequence length on a page. *)
Definition page_min_len `{Bs4} (soup : Soup) (field_selectors : dict string)
  : nat :=
  match py_min (map (@length PyStr) (values (extract_fields soup field_selectors))) with
  | Ok m => m
  | Raise _ => 0
  end.

(** What a page adds to the column of a selector when its request is the
    [n]-th of the run: nothing when the fetch fails, the aligned sequence
    otherwise. *)
Definition page_rows `{Bs4} `{Requests} (self : GenericScraper)
    (field_selectors : dict string) (n : nat) (page_num : option Z)
    (selector : string) : list PyStr :=
  match page_of_response (requests_get n (page_url self page_num)) with
  | None => []
  | Some soup =>
      firstn (page_min_len soup field_selectors) (extract_field soup selector)
  end.

(** The column of a selector over the pages, in page order. *)
Fixpoint listing_column `{Bs4} `{Requests} (self : GenericScraper)
    (field_selectors : dict string) (n : nat) (ps : list (option Z))
    (selector : string) : list PyStr :=
  match ps with
  | [] => []
  | p :: ps' =>
      (page_rows self field_selectors n p selector
         ++ listing_column self field_selectors (S n) ps' selector)%list
  end.

(** The record set of a scrape whose first request is the [n]-th. *)
Definition listing_data `{Bs4} `{Requests} (self : GenericScraper)
    (field_selectors : dict string) (n : nat) (ps : list (option Z))
  : dict (list PyStr) :=
  map (fun kv => (fst kv, listing_column self field_selectors n ps (snd kv)))
      field_selectors.

(** The number of rows a page adds. *)
Definition page_count `{Bs4} `{Requests} (self : GenericScraper)
    (field_selectors : dict string) (n : nat) (page_num : option Z) : nat :=
  match page_of_response (requests_get n (page_url self page_num)) with
  | None => 0
  | Some soup => page_min_len soup field_selectors
  end.

(** The number of rows of the record set. *)
Fixpoint listing_rows `{Bs4} `{Requests} (self : GenericScraper)
    (field_selectors : dict string) (n : nat) (ps : list (option Z)) : nat :=
  match ps with
  | [] => 0
  | p :: ps' =>
      page_count self field_selectors n p
        + listing_rows self field_selectors (S n) ps'
  end.

(** The pauses of a scrape: one per page that was fetched. *)
Fixpoint listing_pauses `{Bs4} `{Requests} (self : GenericScraper) (n : nat)
    (ps : list (option Z)) : list Z :=
  match ps with
  | [] => []
  | p :: ps' =>
      (match page_of_response (requests_get n (page_url self p)) with
       | None => []
       | Some _ => [1%Z]
       end ++ listing_pauses self (S n) ps')%list
  end.

(** The sequences of a page all have the same length. *)
Definition aligned (raw_data : dict (list PyStr)) : Prop :=
  forall l1 l2, In l1 (values raw_data) -> In l2 (values raw_data) ->
                length l1 = length l2.

(** A computation that prints at most: it sends no request, does not
    pause and leaves the file system alone. *)
Definition prints_only {A} (m : M A) : Prop :=
  forall w, exists t,
    snd (m w) = mkWorld (trace w ++ t) (sent w) (dirs w) (files w)
    /\ requested t = [] /\ slept t = [].

(** A computation that sends no request and does not pause. *)
Definition offline {A} (m : M A) : Prop :=
  forall w,
    requested (trace (snd (m w))) = requested (trace w)
    /\ slept (trace (snd (m w))) = slept (trace w)
    /\ sent (snd (m w)) = sent w.

(** The world once the directories of a path have been created. *)
Definition with_dirs (w : World) (d : string) : World :=
  mkWorld (trace w) (sent w) (fold_left add_dir (dir_chain "" d) (dirs w))
          (files w).

(** The frame a scrape leaves when its first request is the [n]-th. *)
Definition listing_frame `{Bs4} `{Requests} (self : GenericScraper)
    (field_selectors : dict string) (n : nat) : DataFrame :=
  mkFrame (listing_rows self field_selectors n (pages self))
          (listing_data self field_selectors n (pages self)).

(** The strategy a supported name stands for. *)
Definition strategy_named (name : string) : option SaveStrategy :=
  if String.eqb name "csv" then Some CsvStrategy
  else if String.eqb name "json" then Some JsonStrategy
  else if String.eqb name "xml" then Some XmlStrategy
  else None.

(** A platform whose XML serialiser refuses every frame. *)
Definition no_xml_platform (now : DateTime) : Platform :=
  {| datetime_now := fun _ => now;
     to_csv := fun _ => Ok "csv";
     to_json := fun _ => Ok "json";
     to_xml := fun _ => Raise (ValueError "Invalid tag name") |}.

(* ================================================================== *)
(** * Properties *)

(** ** Strings *)

Lemma append_nil_r (s : string) : s ++ "" = s.
Proof. induction s as [|c s IH]; simpl; [reflexivity | now rewrite IH]. Qed.

Lemma append_assoc (s t u : string) : (s ++ t) ++ u = s ++ (t ++ u).
Proof. induction s as [|c s IH]; simpl; [reflexivity | now rewrite IH]. Qed.

(** [rstrip] takes a run of slashes off the end, and the whole run. *)
Lemma rstrip_slash_spec (s : string) :
  (exists k, s = Py.rstrip "/" s ++ slashes k)
  /\ last_char (Py.rstrip "/" s) <> Some "/"%char.
Proof.
  induction s as [|a s [[k Hk] Hlast]]; simpl.
  - split; [exists 0; reflexivity | discriminate].
  - destruct (Py.rstrip "/" s) as [|b r] eqn:E.
    + destruct (Ascii.eqb a "/") eqn:Ea.
      * apply Ascii.eqb_eq in Ea. subst a. split; [|discriminate].
        exists (S k). simpl in *. now rewrite Hk at 1.
      * apply Ascii.eqb_neq in Ea. split.
        -- exists k. simpl in *. now rewrite Hk at 1.
        -- simpl. congruence.
    + split.
      * exists k. simpl. now rewrite Hk at 1.
      * exact Hlast.
Qed.

(** A string without a trailing slash is left as it is. *)
Lemma rstrip_slash_id (s : string) :
  last_char s <> Some "/"%char -> Py.rstrip "/" s = s.
Proof.
  induction s as [|a s IH]; simpl; intros H; [reflexivity|].
  destruct s as [|b s].
  - simpl. destruct (Ascii.eqb a "/") eqn:Ea; [|reflexivity].
    apply Ascii.eqb_eq in Ea. subst. now elim H.
  - rewrite IH by exact H. reflexivity.
Qed.

(** ** Dictionaries *)

Lemma dict_get_set_same {V} (d : dict V) k v :
  dict_get (dict_set d k v) k = Some v.
Proof.
  induction d as [|[k' v'] d IH]; simpl.
  - now rewrite String.eqb_refl.
  - destruct (String.eqb k' k) eqn:E; simpl.
    + now rewrite String.eqb_refl.
    + now rewrite E.
Qed.

Lemma dict_get_set_other {V} (d : dict V) k k' v :
  k <> k' -> dict_get (dict_set d k v) k' = dict_get d k'.
Proof.
  intros Hne. induction d as [|[k0 v0] d IH]; simpl.
  - destruct (String.eqb k k') eqn:E; [apply String.eqb_eq in E; contradiction | reflexivity].
  - destruct (String.eqb k0 k) eqn:E; simpl.
    + apply String.eqb_eq in E. subst k0.
      destruct (String.eqb k k') eqn:E'; [apply String.eqb_eq in E'; contradiction | reflexivity].
    + now rewrite IH.
Qed.

Lemma dict_get_in_keys {V} (d : dict V) k :
  In k (keys d) <-> dict_get d k <> None.
Proof.
  induction d as [|[k' v'] d IH]; simpl.
  - tauto.
  - destruct (String.eqb k' k) eqn:E.
    + apply String.eqb_eq in E. split; [discriminate | auto].
    + apply String.eqb_neq in E. rewrite <- IH. tauto.
Qed.

Lemma dict_get_some_in {V} (d : dict V) k v :
  dict_get d k = Some v -> In (k, v) d.
Proof.
  induction d as [|[k' v'] d IH]; simpl; [discriminate|].
  destruct (String.eqb k' k) eqn:E.
  - apply String.eqb_eq in E. intros [= ->]. subst. now left.
  - auto.
Qed.

Lemma dict_get_nodup {V} (d : dict V) k v :
  NoDup (keys d) -> In (k, v) d -> dict_get d k = Some v.
Proof.
  induction d as [|[k' v'] d IH]; simpl; [tauto|].
  intros Hnd [H | H].
  - injection H as -> ->. now rewrite String.eqb_refl.
  - inversion Hnd as [|? ? Hnotin Hnd']; subst.
    destruct (String.eqb k' k) eqn:E.
    + apply String.eqb_eq in E. subst k'. elim Hnotin.
      change k with (fst (k, v)). now apply in_map.
    + auto.
Qed.

(** Writing an existing key keeps the keys and their order. *)
Lemma keys_dict_set_in {V} (d : dict V) k v :
  In k (keys d) -> keys (dict_set d k v) = keys d.
Proof.
  induction d as [|[k' v'] d IH]; simpl; [tauto|].
  destruct (String.eqb k' k) eqn:E.
  - apply String.eqb_eq in E. now subst.
  - apply String.eqb_neq in E. intros [H | H]; [contradiction|].
    simpl. now rewrite IH.
Qed.

(** Writing a new key appends it. *)
Lemma dict_set_fresh {V} (d : dict V) k v :
  ~ In k (keys d) -> dict_set d k v = (d ++ [(k, v)])%list.
Proof.
  induction d as [|[k' v'] d IH]; simpl; [reflexivity|].
  intros H. destruct (String.eqb k' k) eqn:E.
  - apply String.eqb_eq in E. tauto.
  - rewrite IH; tauto.
Qed.

(** Writing a key leaves the other entries, and their order, alone. *)
Lemma dict_set_others {V} (d : dict V) k v :
  filter (fun c => negb (String.eqb (fst c) k)) (dict_set d k v)
  = filter (fun c => negb (String.eqb (fst c) k)) d.
Proof.
  induction d as [|[k' v'] d IH]; simpl.
  - now rewrite String.eqb_refl.
  - destruct (String.eqb k' k) eqn:E; simpl.
    + now rewrite String.eqb_refl.
    + now rewrite E, IH.
Qed.

(** A dictionary built key by key from distinct keys has one entry per
    key, in the order of the keys. *)
Lemma fold_dict_set_nodup {A V} (f : A -> string) (g : A -> V) (l : list A) :
  forall acc,
    NoDup (keys acc ++ map f l) ->
    fold_left (fun d x => dict_set d (f x) (g x)) l acc
    = (acc ++ map (fun x => (f x, g x)) l)%list.
Proof.
  induction l as [|x l IH]; simpl; intros acc Hnd.
  - now rewrite app_nil_r.
  - rewrite dict_set_fresh.
    + rewrite IH.
      * now rewrite <- app_assoc.
      * unfold keys in *. rewrite map_app. simpl. now rewrite <- app_assoc.
    + apply NoDup_remove_2 in Hnd. intros Hin. apply Hnd.
      apply in_or_app. now left.
Qed.

(** ** The Pager *)

Lemma range_seq (a b : Z) :
  Py.range a (b + 1)
  = map (fun i => (a + Z.of_nat i)%Z) (seq 0 (Z.to_nat (b - a + 1))).
Proof. unfold Py.range. do 2 f_equal. lia. Qed.

Lemma page_urls_spec (self : GenericScraper) :
  page_urls self
  = spec_page_urls (base_url self) (start_page self) (end_page self)
      (page_param self) (pagination_enabled self).
Proof.
  unfold page_urls, pages, spec_page_urls.
  destruct (pagination_enabled self); [|reflexivity].
  rewrite range_seq, !map_map. reflexivity.
Qed.


(** ** Running monadic code *)

Ltac run := unfold bind, ret, raise, lift, print, sleep, emit; simpl.

Lemma requested_app (t u : list Event) :
  requested (t ++ u) = (requested t ++ requested u)%list.
Proof.
  induction t as [|ev t IH]; simpl; [reflexivity|].
  destruct ev; simpl; now rewrite ?IH.
Qed.

Lemma slept_app (t u : list Event) :
  slept (t ++ u) = (slept t ++ slept u)%list.
Proof.
  induction t as [|ev t IH]; simpl; [reflexivity|].
  destruct ev; simpl; now rewrite ?IH.
Qed.

Lemma raise_for_status_none url status_code reason :
  raise_for_status url status_code reason = None
  <-> is_http_error status_code = false.
Proof.
  unfold raise_for_status, is_http_error.
  destruct (400 <=? status_code)%Z eqn:E1, (status_code <? 500)%Z eqn:E2,
    (500 <=? status_code)%Z eqn:E3, (status_code <? 600)%Z eqn:E4;
    simpl; split; intros; try reflexivity; try discriminate; lia.
Qed.

Lemma is_2xx_not_error status_code :
  is_2xx status_code = true -> is_http_error status_code = false.
Proof. unfold is_2xx, is_http_error. lia. Qed.

Section RequestPage.

Context `{B : Bs4} `{N : Requests}.

(** [request_page] never raises: it returns the page or [None], having
    sent one request. *)
Lemma request_page_run (self : GenericScraper) (url : string) (w : World) :
  request_page self url w
  = (Ok (page_of_response (requests_get (sent w) url)),
     after_request self url w).
Proof.
  unfold request_page, after_request, http_get, response_events, page_of_response.
  run.
  destruct (requests_get (sent w) url) as [status_code reason text | e]; simpl.
  - destruct (raise_for_status url status_code reason) as [e|] eqn:E; simpl.
    + assert (H : is_http_error status_code = true).
      { destruct (is_http_error status_code) eqn:E'; [reflexivity|].
        apply raise_for_status_none with (url := url) (reason := reason) in E'.
        congruence. }
      rewrite H. now rewrite <- !app_assoc.
    + apply raise_for_status_none in E. rewrite E. now rewrite <- !app_assoc.
  - now rewrite <- !app_assoc.
Qed.

Lemma requested_response_events url r : requested (response_events url r) = [].
Proof.
  destruct r as [status_code reason text | e]; simpl; [|reflexivity].
  now destruct (raise_for_status url status_code reason).
Qed.

Lemma requested_after_request self url w :
  requested (trace (after_request self url w))
  = (requested (trace w) ++ [url])%list.
Proof.
  unfold after_request. simpl.
  now rewrite requested_app; simpl; rewrite requested_response_events.
Qed.

(** C8 (as amended): [request_page] sends exactly one GET request, with
    the headers of the scraper, which are the fixed User-Agent header; it
    never raises.  A transport error and a 4xx or 5xx status give [None];
    every other response gives the parsed body, and is followed by the
    one-second pause. *)
Theorem request_page_contract (self : GenericScraper) (url : string) (w : World) :
  let r := requests_get (sent w) url in
  let out := request_page self url w in
  (forall b s e pp lb en,
      headers (GenericScraper_init b s e pp lb en) = [("User-Agent", user_agent)])
  /\ requested (trace (snd out)) = (requested (trace w) ++ [url])%list
  /\ (exists rest,
        trace (snd out)
        = (trace w ++ Print ("Requesting: " ++ url) :: HttpGet url (headers self)
             :: rest)%list
        /\ requested rest = [])
  /\ match r with
     | RequestException _ => fst out = Ok None
     | Response status_code _ text =>
         if ((400 <=? status_code) && (status_code <? 600))%Z then
           fst out = Ok None
         else
           fst out = Ok (Some (BeautifulSoup text))
           /\ trace (snd out)
              = (trace w ++ [Print ("Requesting: " ++ url);
                             HttpGet url (headers self); Sleep 1])%list
     end.
Proof.
  intros r out. subst out. rewrite request_page_run. simpl.
  split; [reflexivity|].
  split; [apply requested_after_request|].
  split.
  - eexists. split; [reflexivity | apply requested_response_events].
  - fold r. destruct r as [status_code reason text | e]; simpl; [|reflexivity].
    fold (is_http_error status_code).
    destruct (is_http_error status_code) eqn:E; [reflexivity|].
    split; [reflexivity|].
    apply raise_for_status_none with (url := url) (reason := reason) in E.
    now rewrite E.
Qed.

End RequestPage.

(** C8 (as stated) fails twice: a request that fails is not followed by
    the pause, and a status outside 2xx that is not 4xx or 5xx is not a
    failure: the body of a 304 response is parsed and returned. *)
Lemma request_page_counterexample :
  let B := Fixture.bs4 Fixture.parse in
  let N := Fixture.net Fixture.table in
  (fst (request_page Fixture.scraper "http://x/nowhere" Fixture.w0) = Ok None
   /\ slept (trace (snd (request_page Fixture.scraper "http://x/nowhere"
                           Fixture.w0))) = [])
  /\ (requests_get 0 "http://x/moved" = Response 304 "Not Modified" "cached"
      /\ is_2xx 304 = false
      /\ fst (request_page Fixture.scraper "http://x/moved" Fixture.w0)
         = Ok (Some (Fixture.parse "cached"))).
Proof. vm_compute. repeat split. Qed.

(** ** Field extraction *)

Lemma distinct_NoDup (l : list string) : distinct l = true <-> NoDup l.
Proof.
  induction l as [|k l IH]; simpl.
  - split; [constructor | reflexivity].
  - rewrite andb_true_iff, negb_true_iff, IH. split.
    + intros [Hk Hl]. constructor; [|exact Hl].
      intros Hin. assert (existsb (String.eqb k) l = true); [|congruence].
      apply existsb_exists. exists k. split; [exact Hin | apply String.eqb_refl].
    + intros Hnd. inversion Hnd as [|? ? Hk Hl]; subst. split; [|exact Hl].
      destruct (existsb (String.eqb k) l) eqn:E; [|reflexivity].
      apply existsb_exists in E as (x & Hin & Hx).
      apply String.eqb_eq in Hx. now subst.
Qed.

Lemma empty_field_data_map (field_selectors : dict string) :
  NoDup (keys field_selectors) ->
  empty_field_data field_selectors
  = map (fun k => (k, [])) (keys field_selectors).
Proof.
  intros Hnd. unfold empty_field_data.
  apply (fold_dict_set_nodup (fun k => k) (fun _ => @nil PyStr)).
  simpl. now rewrite map_id.
Qed.

Lemma keys_empty_field_data (field_selectors : dict string) :
  NoDup (keys field_selectors) ->
  keys (empty_field_data field_selectors) = keys field_selectors.
Proof.
  intros Hnd. rewrite empty_field_data_map by exact Hnd.
  unfold keys. rewrite map_map. simpl. apply map_id.
Qed.

Section Extraction.

Context `{B : Bs4}.

Lemma extract_fields_map (soup : Soup) (field_selectors : dict string) :
  NoDup (keys field_selectors) ->
  extract_fields soup field_selectors
  = map (fun kv => (fst kv, extract_field soup (snd kv))) field_selectors.
Proof.
  intros Hnd. unfold extract_fields.
  apply (fold_dict_set_nodup fst (fun kv => extract_field soup (snd kv))).
  exact Hnd.
Qed.

Lemma keys_extract_fields (soup : Soup) (field_selectors : dict string) :
  NoDup (keys field_selectors) ->
  keys (extract_fields soup field_selectors) = keys field_selectors.
Proof.
  intros Hnd. rewrite extract_fields_map by exact Hnd.
  unfold keys. now rewrite map_map.
Qed.

(** The value extracted from a tag, by the shape of the selector. *)
Lemma extract_field_nth (soup : Soup) (selector : string) (i : nat) (el : Tag) :
  nth_error (select soup selector) i = Some el ->
  nth_error (extract_field soup selector) i
  = Some (if Py.contains "[href]" selector then tag_get el "href"
          else if Py.contains "[src]" selector then tag_get el "src"
          else Some (get_text_strip el)).
Proof.
  intros H. unfold extract_field.
  destruct (Py.contains "[href]" selector);
    [|destruct (Py.contains "[src]" selector)];
    rewrite nth_error_map, H; reflexivity.
Qed.

Lemma length_extract_field (soup : Soup) (selector : string) :
  length (extract_field soup selector) = length (select soup selector).
Proof.
  unfold extract_field.
  destruct (Py.contains "[href]" selector);
    [|destruct (Py.contains "[src]" selector)];
    apply length_map.
Qed.

End Extraction.

(** C4: the extractor returns one sequence per key, in the order of the
    keys; the sequence of a key has one value per matched tag, in document
    order: the [href] attribute when the selector contains "[href]", else
    the [src] attribute when it contains "[src]", else the stripped text.
    An attribute selector never reads the text (the result is the same
    whatever the text of the tags is), a tag without the attribute gives
    [None], and a selector that matches nothing gives the empty
    sequence. *)
Theorem field_extractor_contract (B : Bs4) (soup : Soup)
    (field_selectors : dict string) :
  distinct (keys field_selectors) = true ->
  keys (extract_fields soup field_selectors) = keys field_selectors
  /\ forall key selector,
       In (key, selector) field_selectors ->
       dict_get (extract_fields soup field_selectors) key
       = Some (extract_field soup selector)
       /\ length (extract_field soup selector) = length (select soup selector)
       /\ (forall i el,
             nth_error (select soup selector) i = Some el ->
             nth_error (extract_field soup selector) i
             = Some (if Py.contains "[href]" selector then tag_get el "href"
                     else if Py.contains "[src]" selector then tag_get el "src"
                     else Some (get_text_strip el)))
       /\ (Py.contains "[href]" selector || Py.contains "[src]" selector = true ->
           forall g, @extract_field (with_text B g) soup selector
                     = extract_field soup selector)
       /\ (select soup selector = [] -> extract_field soup selector = []).
Proof.
  intros Hd. apply distinct_NoDup in Hd.
  split; [now apply keys_extract_fields|].
  intros key selector Hin.
  split.
  { apply dict_get_nodup.
    - now rewrite keys_extract_fields.
    - rewrite extract_fields_map by exact Hd.
      apply (in_map (fun kv => (fst kv, extract_field soup (snd kv))) _ _ Hin). }
  split; [apply length_extract_field|].
  split; [intros i el; apply extract_field_nth|].
  split.
  - intros Hattr g. unfold extract_field. simpl.
    destruct (Py.contains "[href]" selector); [reflexivity|].
    destruct (Py.contains "[src]" selector); [reflexivity | discriminate].
  - intros Hnone. unfold extract_field. rewrite Hnone.
    destruct (Py.contains "[href]" selector);
      [|destruct (Py.contains "[src]" selector)]; reflexivity.
Qed.

Lemma field_extractor_contract_witness :
  let B := Fixture.bs4 Fixture.parse in
  keys (extract_fields Fixture.listing Fixture.fields)
  = ["title"; "link"; "image"]
  /\ dict_get (extract_fields Fixture.listing Fixture.fields) "image"
     = Some [Some "1.png"; Some "2.png"; None].
Proof.
  intros B.
  destruct (field_extractor_contract B Fixture.listing Fixture.fields eq_refl)
    as [Hkeys Hfields].
  split; [exact Hkeys|].
  destruct (Hfields "image" "img.pic[src]") as [Hget _].
  - simpl. auto.
  - exact Hget.
Defined.

(** ** Aligning the sequences of a page *)

Lemma fold_min_spec (l : list nat) :
  forall x,
    let m := fold_left Nat.min l x in
    (m = x \/ In m l) /\ m <= x /\ (forall y, In y l -> m <= y).
Proof.
  induction l as [|a l IH]; simpl; intros x.
  - split; [now left|]. split; [lia | tauto].
  - specialize (IH (Nat.min x a)). simpl in IH.
    remember (fold_left Nat.min l (Nat.min x a)) as m.
    destruct IH as (Hm & Hle & Hall).
    split; [|split].
    + destruct Hm as [Hm | Hm]; [|auto].
      destruct (Nat.min_dec x a) as [E | E]; rewrite E in Hm; auto.
    + lia.
    + intros y [<- | Hy]; [lia | auto].
Qed.

(** [min] over a non-empty collection is its least element. *)
Lemma py_min_spec (l : list nat) :
  l <> [] ->
  exists m, py_min l = Ok m /\ In m l /\ (forall y, In y l -> m <= y).
Proof.
  destruct l as [|x l]; [congruence|]. intros _. simpl.
  destruct (fold_min_spec l x) as (Hin & Hle & Hall).
  exists (fold_left Nat.min l x). split; [reflexivity|].
  split; [destruct Hin as [Hin | Hin]; [left; now symmetry | now right]|].
  intros y [<- | Hy]; auto.
Qed.

(** The loop of [extend_fields] over distinct keys: the keys it visits
    gain their slice, the others are untouched, and nothing is raised. *)
Lemma extend_loop (raw_data : dict (list PyStr)) (min_len : nat) (w : World) :
  forall ks fd,
    NoDup ks ->
    incl ks (keys fd) ->
    (forall k, In k ks -> dict_get raw_data k <> None) ->
    exists fd',
      foldM (extend_step raw_data min_len) ks fd w = (Ok fd', w)
      /\ keys fd' = keys fd
      /\ (forall k old lst,
            In k ks -> dict_get fd k = Some old -> dict_get raw_data k = Some lst ->
            dict_get fd' k = Some (old ++ firstn min_len lst)%list)
      /\ (forall k, ~ In k ks -> dict_get fd' k = dict_get fd k).
Proof.
  induction ks as [|k ks IH]; intros fd Hnd Hincl Hraw.
  - exists fd. simpl. repeat split; tauto.
  - inversion Hnd as [|? ? Hk Hnd']; subst.
    assert (Hkin : In k (keys fd)) by (apply Hincl; now left).
    destruct (dict_get fd k) as [old|] eqn:Eold;
      [|now apply dict_get_in_keys in Hkin].
    destruct (dict_get raw_data k) as [lst|] eqn:Elst;
      [|now elim (Hraw k (or_introl eq_refl))].
    set (fd1 := dict_set fd k (old ++ Py.slice_to min_len lst)%list).
    assert (Hkeys1 : keys fd1 = keys fd) by now apply keys_dict_set_in.
    destruct (IH fd1 Hnd') as (fd' & Hrun & Hkeys & Hin & Hout).
    { rewrite Hkeys1. intros x Hx. apply Hincl. now right. }
    { intros x Hx. apply Hraw. now right. }
    exists fd'. split; [|split; [|split]].
    + simpl. unfold bind. unfold extend_step at 1. rewrite Elst, Eold.
      unfold ret. exact Hrun.
    + congruence.
    + intros k0 old0 lst0 [<- | Hk0] Hold Hlst.
      * rewrite Hout by exact Hk. unfold fd1. rewrite dict_get_set_same.
        unfold Py.slice_to. congruence.
      * apply Hin; [exact Hk0 | | exact Hlst].
        unfold fd1. rewrite dict_get_set_other; [exact Hold|].
        intros ->. contradiction.
    + intros k0 Hk0. rewrite Hout by (intros H; apply Hk0; now right).
      unfold fd1. apply dict_get_set_other. intros ->. apply Hk0. now left.
Qed.

Lemma mismatch_detected {raw_data : dict (list PyStr)} (m : nat) :
  mismatched raw_data ->
  existsb (fun lst => negb (Nat.eqb (length lst) m)) (values raw_data) = true.
Proof.
  intros (l1 & l2 & H1 & H2 & Hne).
  apply existsb_exists.
  destruct (Nat.eqb (length l1) m) eqn:E1.
  - exists l2. split; [exact H2|].
    apply Nat.eqb_eq in E1. apply negb_true_iff, Nat.eqb_neq. congruence.
  - exists l1. split; [exact H1 | now rewrite E1].
Qed.

(** Lines 114-119 on a page with at least one field: the warning is
    printed exactly when some sequence is longer than the shortest. *)
Lemma merge_page_run (page_num : option Z) (raw_data field_data : dict (list PyStr))
    (w : World) :
  NoDup (keys field_data) ->
  keys raw_data = keys field_data ->
  raw_data <> [] ->
  exists min_len fd',
    (forall lst, In lst (values raw_data) -> min_len <= length lst)
    /\ (exists lst, In lst (values raw_data) /\ length lst = min_len)
    /\ merge_page page_num raw_data field_data w
       = (Ok fd',
          mkWorld
            (trace w
               ++ (if existsb (fun lst => negb (Nat.eqb (length lst) min_len))
                        (values raw_data)
                   then [Print (truncation_warning page_num)] else []))
            (sent w) (dirs w) (files w))
    /\ keys fd' = keys field_data
    /\ (forall key old lst,
          dict_get field_data key = Some old ->
          dict_get raw_data key = Some lst ->
          dict_get fd' key = Some (old ++ firstn min_len lst)%list
          /\ length (firstn min_len lst) = min_len).
Proof.
  intros Hnd Hkeys Hne.
  destruct (py_min_spec (map (@length PyStr) (values raw_data)))
    as (m & Hmin & Hin & Hall).
  { destruct raw_data; [congruence | discriminate]. }
  assert (Hle : forall lst, In lst (values raw_data) -> m <= length lst).
  { intros lst Hlst. apply Hall. now apply in_map. }
  set (long := existsb (fun lst => negb (Nat.eqb (length lst) m)) (values raw_data)).
  set (w1 := mkWorld
               (trace w ++ (if long then [Print (truncation_warning page_num)]
                            else []))
               (sent w) (dirs w) (files w)).
  destruct (extend_loop raw_data m w1 (keys field_data) field_data)
    as (fd' & Hrun & Hk & Hgain & _).
  { exact Hnd. }
  { apply incl_refl. }
  { intros k Hk. apply dict_get_in_keys. now rewrite Hkeys. }
  exists m, fd'. split; [exact Hle|].
  split.
  { apply in_map_iff in Hin as (lst & Hlen & Hlst). now exists lst. }
  split.
  { unfold merge_page, bind, lift. rewrite Hmin. fold long. fold w1.
    unfold extend_fields. rewrite <- Hrun. unfold w1.
    destruct long; [reflexivity|].
    unfold ret. destruct w. simpl. now rewrite app_nil_r. }
  split; [exact Hk|].
  intros key old lst Hold Hlst. split.
  - apply Hgain; try assumption.
    apply dict_get_in_keys. congruence.
  - apply firstn_length_le, Hle.
    apply dict_get_some_in in Hlst.
    change lst with (snd (key, lst)). now apply in_map.
Qed.

(** C1: on a page that was fetched and whose per-field sequences differ in
    length, the scraper takes the minimum length over all sequences,
    prints the line "[Warning] Truncating mismatched field lengths on page
    N" (N the page number, "None" without pagination) right after the
    events of the request and goes on (nothing is raised), and every field
    gains exactly the first [min_len] values of its sequence: the trailing
    values are dropped and nothing is padded.  With lengths 5, 5 and 3
    every field gains 3 values. *)
Theorem mismatched_page_is_truncated (B : Bs4) (N : Requests)
    (self : GenericScraper) (field_selectors : dict string)
    (field_data : dict (list PyStr)) (page_num : option Z) (soup : Soup)
    (w : World) :
  distinct (keys field_selectors) = true ->
  keys field_data = keys field_selectors ->
  page_of_response (requests_get (sent w) (page_url self page_num)) = Some soup ->
  mismatched (extract_fields soup field_selectors) ->
  let raw_data := extract_fields soup field_selectors in
  let out := scrape_page self field_selectors field_data page_num w in
  exists min_len fd',
    (forall lst, In lst (values raw_data) -> min_len <= length lst)
    /\ (exists lst, In lst (values raw_data) /\ length lst = min_len)
    /\ fst out = Ok fd'
    /\ trace (snd out)
       = (trace (after_request self (page_url self page_num) w)
            ++ [Print ("[Warning] Truncating mismatched field lengths on page "
                         ++ match page_num with
                            | None => "None"
                            | Some p => Py.str_of_int p
                            end)%string])%list
    /\ keys fd' = keys field_data
    /\ (forall key old lst,
          dict_get field_data key = Some old ->
          dict_get raw_data key = Some lst ->
          dict_get fd' key = Some (old ++ firstn min_len lst)%list
          /\ length (firstn min_len lst) = min_len)
    /\ (map (@length PyStr) (values raw_data) = [5; 5; 3] -> min_len = 3).
Proof.
  intros Hd Hkeys Hpage Hmis raw_data out.
  apply distinct_NoDup in Hd.
  destruct (merge_page_run page_num raw_data field_data
              (after_request self (page_url self page_num) w))
    as (m & fd' & Hle & Hex & Hrun & Hk & Hgain).
  { now rewrite Hkeys. }
  { unfold raw_data. rewrite keys_extract_fields by exact Hd. now symmetry. }
  { destruct Hmis as (l1 & _ & H1 & _). unfold raw_data. intros Heq.
    now rewrite Heq in H1. }
  assert (Hmis' : mismatched raw_data) by exact Hmis.
  rewrite (mismatch_detected m Hmis') in Hrun.
  assert (Hout : out = merge_page page_num raw_data field_data
                         (after_request self (page_url self page_num) w)).
  { unfold out, scrape_page, bind. rewrite request_page_run, Hpage. reflexivity. }
  exists m, fd'. rewrite Hout, Hrun. simpl.
  repeat (split; [assumption || reflexivity|]).
  intros Hlens. destruct Hex as (lst & Hin & Hlen).
  assert (H3 : m <= 3).
  { destruct Hmis as (l1 & _ & H1 & _).
    assert (In 3 (map (@length PyStr) (values raw_data)))
      by (rewrite Hlens; simpl; tauto).
    apply in_map_iff in H as (l3 & <- & Hl3). now apply Hle. }
  apply (in_map (@length PyStr)) in Hin. rewrite Hlens, Hlen in Hin.
  simpl in Hin. lia.
Qed.

Lemma mismatched_page_is_truncated_witness :
  let B := Fixture.bs4 Fixture.parse in
  let N := Fixture.net Fixture.table in
  (exists fd',
     fst (scrape_page Fixture.scraper Fixture.fields
            (empty_field_data Fixture.fields) None Fixture.w0) = Ok fd'
     /\ dict_get fd' "title" = Some [Some "t1"; Some "t2"; Some "t3"]
     /\ dict_get fd' "link" = Some [Some "/d1"; Some "http://y/d2"; Some "/d3"]
     /\ dict_get fd' "image" = Some [Some "1.png"; Some "2.png"; None])
  /\ trace (snd (scrape_page Fixture.scraper Fixture.fields
                   (empty_field_data Fixture.fields) None Fixture.w0))
     = [Print "Requesting: http://x/list";
        HttpGet "http://x/list" [("User-Agent", user_agent)];
        Sleep 1;
        Print "[Warning] Truncating mismatched field lengths on page None"]
  /\ trace (snd (scrape_page Fixture.paged Fixture.fields
                   (empty_field_data Fixture.fields) (Some 12%Z) Fixture.w0))
     = [Print "Requesting: http://x/list?page=12";
        HttpGet "http://x/list?page=12" [("User-Agent", user_agent)];
        Sleep 1;
        Print "[Warning] Truncating mismatched field lengths on page 12"].
Proof.
  intros B N.
  assert (Hmis : mismatched (extract_fields Fixture.listing Fixture.fields)).
  { exists [Some "t1"; Some "t2"; Some "t3"; Some "t4"; Some "t5"],
           [Some "1.png"; Some "2.png"; None].
    simpl. repeat split; auto. }
  split; [|split].
  - destruct (mismatched_page_is_truncated B N Fixture.scraper Fixture.fields
                (empty_field_data Fixture.fields) None Fixture.listing
                Fixture.w0 eq_refl eq_refl eq_refl Hmis)
      as (m & fd' & _ & _ & Hrun & _ & _ & Hgain & H553).
    exists fd'. split; [exact Hrun|].
    rewrite (H553 eq_refl) in Hgain.
    split; [|split].
    + exact (proj1 (Hgain "title" [] _ eq_refl eq_refl)).
    + exact (proj1 (Hgain "link" [] _ eq_refl eq_refl)).
    + exact (proj1 (Hgain "image" [] _ eq_refl eq_refl)).
  - destruct (mismatched_page_is_truncated B N Fixture.scraper Fixture.fields
                (empty_field_data Fixture.fields) None Fixture.listing
                Fixture.w0 eq_refl eq_refl eq_refl Hmis)
      as (m & fd' & _ & _ & _ & Htrace & _).
    exact Htrace.
  - destruct (mismatched_page_is_truncated B N Fixture.paged Fixture.fields
                (empty_field_data Fixture.fields) (Some 12%Z) Fixture.listing
                Fixture.w0 eq_refl eq_refl eq_refl Hmis)
      as (m & fd' & _ & _ & _ & Htrace & _).
    exact Htrace.
Defined.

(** ** Computations that leave the file system alone *)

Lemma network_only_ret {A} (a : A) : network_only (ret a).
Proof. intros w. exists []. simpl. now rewrite app_nil_r. Qed.

Lemma network_only_raise {A} (e : Exn) : network_only (@raise A e).
Proof. intros w. exists []. simpl. now rewrite app_nil_r. Qed.

Lemma network_only_lift {A} (r : Result A) : network_only (lift r).
Proof. intros w. exists []. simpl. now rewrite app_nil_r. Qed.

Lemma network_only_emit (e : Event) : network_only (emit e).
Proof. intros w. exists [e]. simpl. auto. Qed.

Lemma network_only_bind {A B} (m : M A) (k : A -> M B) :
  network_only m -> (forall a, network_only (k a)) -> network_only (bind m k).
Proof.
  intros Hm Hk w. unfold bind.
  destruct (Hm w) as (t & Ht & Hd & Hf).
  destruct (m w) as [[a | e] w1]; simpl in *.
  - destruct (Hk a w1) as (t' & Ht' & Hd' & Hf').
    exists (t ++ t')%list. rewrite Ht', Hd', Hf', Ht, app_assoc. auto.
  - exists t. auto.
Qed.

Lemma network_only_foldM {A B} (f : A -> B -> M A) (l : list B) :
  (forall a x, network_only (f a x)) -> forall a, network_only (foldM f l a).
Proof.
  intros Hf. induction l as [|x l IH]; intros a; simpl.
  - apply network_only_ret.
  - apply network_only_bind; auto.
Qed.

Lemma network_only_mapM {A B} (f : A -> M B) (l : list A) :
  (forall x, network_only (f x)) -> network_only (mapM f l).
Proof.
  intros Hf. induction l as [|x l IH]; simpl.
  - apply network_only_ret.
  - apply network_only_bind; [apply Hf|]. intros y.
    apply network_only_bind; [exact IH|]. intros ys. apply network_only_ret.
Qed.

(** What follows a computation only adds to its trace. *)
Lemma bind_extends_trace {A B} (m : M A) (k : A -> M B) (w : World) :
  (forall a, network_only (k a)) ->
  exists t, trace (snd (bind m k w)) = (trace (snd (m w)) ++ t)%list.
Proof.
  intros Hk. unfold bind. destruct (m w) as [[a | e] w1]; simpl.
  - destruct (Hk a w1) as (t & Ht & _). now exists t.
  - exists []. now rewrite app_nil_r.
Qed.

Create HintDb network_only.
#[export] Hint Resolve network_only_ret network_only_raise network_only_lift
  network_only_emit network_only_bind network_only_foldM network_only_mapM
  : network_only.

Ltac network_only :=
  repeat first
    [ progress intros
    | apply network_only_bind
    | apply network_only_foldM
    | apply network_only_mapM
    | apply network_only_ret
    | apply network_only_raise
    | apply network_only_lift
    | apply network_only_emit
    | match goal with
      | |- network_only (match ?x with _ => _ end) => destruct x
      | |- network_only (if ?x then _ else _) => destruct x
      end
    | solve [auto with network_only] ].

Section NetworkOnly.

Context `{B : Bs4} `{N : Requests}.

Lemma network_only_request_page self url : network_only (request_page self url).
Proof.
  intros w. rewrite request_page_run. unfold after_request. simpl. eauto.
Qed.

Lemma network_only_merge_page page_num raw_data field_data :
  network_only (merge_page page_num raw_data field_data).
Proof.
  unfold merge_page, extend_fields, print. network_only.
  unfold extend_step. network_only.
Qed.

Lemma network_only_scrape_page self field_selectors field_data page_num :
  network_only (scrape_page self field_selectors field_data page_num).
Proof.
  unfold scrape_page. apply network_only_bind.
  - apply network_only_request_page.
  - intros [soup|]; [apply network_only_merge_page | apply network_only_ret].
Qed.

Lemma network_only_scrape_listing_data self field_selectors :
  network_only (scrape_listing_data self field_selectors).
Proof.
  unfold scrape_listing_data. apply network_only_foldM.
  intros. apply network_only_scrape_page.
Qed.

Lemma network_only_create_dataframe data_dict :
  network_only (create_dataframe data_dict).
Proof.
  unfold create_dataframe. destruct data_dict as [|[k v] rest]; network_only.
Qed.

Lemma network_only_get_value self url selectors attr :
  network_only (get_value_from_product_page self url selectors attr).
Proof.
  unfold get_value_from_product_page. destruct url as [url|].
  - apply network_only_bind; [apply network_only_request_page|].
    intros [soup|]; apply network_only_ret.
  - apply network_only_raise.
Qed.

Lemma network_only_enrich self df column_name selectors attr link_column :
  network_only
    (enrich_dataframe_column_from_pages self df column_name selectors attr
       link_column).
Proof.
  unfold enrich_dataframe_column_from_pages, df_getitem.
  apply network_only_bind; [network_only|]. intros links.
  apply network_only_bind; [|network_only].
  apply network_only_mapM. intros. apply network_only_get_value.
Qed.

Lemma network_only_scrape_and_enrich config :
  network_only (scrape_and_enrich config).
Proof.
  unfold scrape_and_enrich, print.
  apply network_only_bind; [apply network_only_emit|]. intros _.
  apply network_only_bind; [apply network_only_scrape_listing_data|]. intros data.
  apply network_only_bind; [apply network_only_create_dataframe|]. intros df.
  destruct (get_default (cfg_enrich config) false); [|apply network_only_ret].
  apply network_only_bind; [apply network_only_emit|]. intros _.
  apply network_only_bind.
  - destruct (cfg_enrich_selectors config); network_only.
  - intros. apply network_only_enrich.
Qed.

End NetworkOnly.

(** ** Enrichment *)

Lemma forallb_dict_set {V} (p : V -> bool) (d : dict V) k v :
  forallb (fun c => p (snd c)) d = true -> p v = true ->
  forallb (fun c => p (snd c)) (dict_set d k v) = true.
Proof.
  intros Hd Hv. induction d as [|[k' v'] d IH]; simpl in *.
  - now rewrite Hv.
  - apply andb_true_iff in Hd as [Hv' Hd].
    destruct (String.eqb k' k); simpl.
    + now rewrite Hv, Hd.
    + now rewrite Hv', IH.
Qed.

(** A frame built by [create_dataframe] has one cell per row in every
    column. *)
Lemma create_dataframe_well_formed (data_dict : dict (list PyStr)) (df : DataFrame)
    (w w' : World) :
  create_dataframe data_dict w = (Ok df, w') -> well_formed df = true.
Proof.
  unfold create_dataframe. destruct data_dict as [|[k v] rest].
  - intros [= <- _]. reflexivity.
  - destruct (forallb _ rest) eqn:E; [|discriminate].
    intros [= <- _]. unfold well_formed. cbn [columns nrows forallb snd].
    now rewrite Nat.eqb_refl, E.
Qed.

Section Enrichment.

Context `{B : Bs4} `{N : Requests}.

Lemma first_selector_match_none (soup : Soup) (selectors : list string) attr :
  (forall s, In s selectors -> select soup s = []) ->
  first_selector_match soup selectors attr = None.
Proof.
  induction selectors as [|s selectors IH]; simpl; intros H; [reflexivity|].
  unfold select_one. rewrite (H s) by now left. simpl. apply IH.
  intros s' Hs'. apply H. now right.
Qed.

Lemma first_selector_match_first (soup : Soup) attr sel post tag more :
  forall pre,
    (forall s, In s pre -> select soup s = []) ->
    select soup sel = tag :: more ->
    first_selector_match soup (pre ++ sel :: post) attr = tag_value tag attr.
Proof.
  induction pre as [|s pre IH]; simpl; intros Hpre Hsel.
  - unfold select_one. rewrite Hsel. reflexivity.
  - unfold select_one. rewrite (Hpre s) by now left. simpl.
    apply IH; [|exact Hsel]. intros s' Hs'. apply Hpre. now right.
Qed.

(** One cell: a link that is a string is fetched, and nothing is raised. *)
Lemma get_value_run self (u : string) selectors attr (w : World) :
  get_value_from_product_page self (Some u) selectors attr w
  = (Ok (enriched_cell self selectors attr (sent w) u),
     after_request self (full_url self u) w).
Proof.
  unfold get_value_from_product_page, bind, enriched_cell.
  rewrite request_page_run.
  now destruct (page_of_response (requests_get (sent w) (full_url self u))).
Qed.

(** [Series.apply] over a column of strings: one request per row, in row
    order, and one cell per row. *)
Lemma enrich_loop self selectors attr :
  forall (links : list string) (w : World),
  exists w',
    mapM (fun url => get_value_from_product_page self url selectors attr)
         (map Some links) w
    = (Ok (enriched_cells self selectors attr (sent w) links), w')
    /\ sent w' = sent w + length links
    /\ requested (trace w')
       = (requested (trace w) ++ map (full_url self) links)%list
    /\ dirs w' = dirs w /\ files w' = files w.
Proof.
  induction links as [|u links IH]; intros w;
    cbn [map mapM length enriched_cells].
  - exists w. unfold ret. rewrite app_nil_r. repeat split; lia.
  - unfold bind at 1. cbv beta. rewrite get_value_run.
    destruct (IH (after_request self (full_url self u) w))
      as (w' & Hrun & Hsent & Hreq & Hd & Hf).
    exists w'. unfold bind at 1. rewrite Hrun. unfold ret.
    split; [reflexivity|].
    rewrite Hsent, Hreq, Hd, Hf, requested_after_request, <- app_assoc.
    simpl. repeat split; lia.
Qed.

(** A [None] among the links stops the column with an [AttributeError],
    after the rows before it have been fetched. *)
Lemma enrich_loop_none self selectors attr (post : list PyStr) :
  forall (pre : list string) (w : World),
    fst (mapM (fun url => get_value_from_product_page self url selectors attr)
              (map Some pre ++ None :: post) w)
    = Raise (AttributeError none_has_no_startswith).
Proof.
  induction pre as [|u pre IH]; intros w; cbn [map app mapM].
  - reflexivity.
  - unfold bind at 1. cbv beta. rewrite get_value_run.
    specialize (IH (after_request self (full_url self u) w)).
    unfold bind at 1.
    match goal with
    | |- context [mapM ?f ?l ?w0] => destruct (mapM f l w0) as [[ys | e] w1]
    end; simpl in *; congruence.
Qed.

Lemma length_enriched_cells self selectors attr (links : list string) :
  forall n, length (enriched_cells self selectors attr n links) = length links.
Proof. induction links as [|u links IH]; intros n; simpl; auto. Qed.

Lemma nth_enriched_cells self selectors attr (links : list string) :
  forall n i u,
    nth_error links i = Some u ->
    nth_error (enriched_cells self selectors attr n links) i
    = Some (enriched_cell self selectors attr (n + i) u).
Proof.
  induction links as [|u0 links IH]; intros n [|i] u; simpl; try discriminate.
  - intros [= ->]. now rewrite Nat.add_0_r.
  - intros H. rewrite (IH (S n) i u H). do 2 f_equal. lia.
Qed.

(** The whole step on a frame whose link column holds strings. *)
Lemma enrich_run self (df : DataFrame) column_name selectors attr link_column
    (links : list string) (w : World) :
  dict_get (columns df) link_column = Some (map Some links) ->
  exists w',
    enrich_dataframe_column_from_pages self df column_name selectors attr
      link_column w
    = (Ok (df_setitem df column_name
             (enriched_cells self selectors attr (sent w) links)), w')
    /\ requested (trace w')
       = (requested (trace w) ++ map (full_url self) links)%list.
Proof.
  intros Hlinks.
  destruct (enrich_loop self selectors attr links w) as (w' & Hrun & _ & Hreq & _).
  exists w'. split; [|exact Hreq].
  unfold enrich_dataframe_column_from_pages, df_getitem, bind.
  rewrite Hlinks. unfold ret at 1. rewrite Hrun. reflexivity.
Qed.

End Enrichment.

(** C2: for every row, the cell of the target column is the value of the
    first selector of the list that matches the fetched detail page (the
    selectors before it match nothing, the ones after it are not looked
    at), and null when the fetch fails (transport error, 4xx or 5xx) or no
    selector matches.  The link column holds strings, as the contract of
    enrichment requires. *)
Theorem enrichment_first_match (B : Bs4) (N : Requests) (self : GenericScraper)
    (df : DataFrame) (column_name : string) (selectors : list string)
    (attr : PyStr) (link_column : string) (links : list string) (w : World) :
  dict_get (columns df) link_column = Some (map Some links) ->
  exists df' w',
    enrich_dataframe_column_from_pages self df column_name selectors attr
      link_column w = (Ok df', w')
    /\ (forall i u,
          nth_error links i = Some u ->
          match requests_get (sent w + i) (full_url self u) with
          | RequestException _ => cell df' column_name i = Some None
          | Response status_code _ text =>
              if is_http_error status_code then
                cell df' column_name i = Some None
              else
                cell df' column_name i
                = Some (first_selector_match (BeautifulSoup text) selectors attr)
          end)
    /\ (forall soup,
          (forall s, In s selectors -> select soup s = []) ->
          first_selector_match soup selectors attr = None)
    /\ (forall soup pre sel post tag more,
          selectors = (pre ++ sel :: post)%list ->
          (forall s, In s pre -> select soup s = []) ->
          select soup sel = tag :: more ->
          first_selector_match soup selectors attr = tag_value tag attr).
Proof.
  intros Hlinks.
  destruct (enrich_run self df column_name selectors attr link_column links w Hlinks)
    as (w' & Hrun & _).
  eexists. exists w'. split; [exact Hrun|].
  split; [|split].
  - intros i u Hu.
    assert (Hcell : cell (df_setitem df column_name
                            (enriched_cells self selectors attr (sent w) links))
                      column_name i
                    = Some (enriched_cell self selectors attr (sent w + i) u)).
    { unfold cell, df_setitem. simpl. rewrite dict_get_set_same.
      now apply nth_enriched_cells. }
    rewrite Hcell. unfold enriched_cell, page_of_response.
    destruct (requests_get (sent w + i) (full_url self u))
      as [status_code reason text | e]; [|reflexivity].
    now destruct (is_http_error status_code).
  - intros soup. apply first_selector_match_none.
  - intros soup pre sel post tag more ->. apply first_selector_match_first.
Qed.

Lemma enrichment_first_match_witness :
  let B := Fixture.bs4 Fixture.parse in
  let N := Fixture.net Fixture.table in
  exists df' w',
    enrich_dataframe_column_from_pages Fixture.scraper Fixture.frame "content"
      Fixture.selectors None "link" Fixture.w0 = (Ok df', w')
    /\ cell df' "content" 0 = Some (Some "first")
    /\ cell df' "content" 1 = Some None
    /\ cell df' "content" 2 = Some None.
Proof.
  intros B N.
  destruct (enrichment_first_match B N Fixture.scraper Fixture.frame "content"
              Fixture.selectors None "link" ["/d1"; "http://y/d2"; "/d3"]
              Fixture.w0 eq_refl)
    as (df' & w' & Hrun & Hcells & _).
  exists df', w'. split; [exact Hrun|].
  split; [|split].
  - exact (Hcells 0 "/d1" eq_refl).
  - exact (Hcells 1 "http://y/d2" eq_refl).
  - exact (Hcells 2 "/d3" eq_refl).
Defined.

(** C5: enrichment returns the frame it was given with the target column
    written: the same number of rows, every column (the target too) with
    one cell per row, the other columns unchanged and in the same order.
    The target cell of row [i] is computed from the link of row [i] and
    the answer to the request of that row alone, whatever the network
    answers to the other requests, and the rows are fetched in row
    order. *)
Theorem enrichment_preserves_rows (B : Bs4) (N : Requests) (self : GenericScraper)
    (df : DataFrame) (column_name : string) (selectors : list string)
    (attr : PyStr) (link_column : string) (links : list string) (w : World) :
  well_formed df = true ->
  dict_get (columns df) link_column = Some (map Some links) ->
  exists df' w',
    enrich_dataframe_column_from_pages self df column_name selectors attr
      link_column w = (Ok df', w')
    /\ nrows df' = nrows df
    /\ well_formed df' = true
    /\ other_columns df' column_name = other_columns df column_name
    /\ (forall name i,
          name <> column_name -> cell df' name i = cell df name i)
    /\ (In column_name (keys (columns df)) ->
        keys (columns df') = keys (columns df))
    /\ (forall i,
          i < nrows df ->
          exists u,
            nth_error links i = Some u
            /\ cell df' column_name i
               = Some (enriched_cell self selectors attr (sent w + i) u))
    /\ requested (trace w')
       = (requested (trace w) ++ map (full_url self) links)%list.
Proof.
  intros Hwf Hlinks.
  destruct (enrich_run self df column_name selectors attr link_column links w Hlinks)
    as (w' & Hrun & Hreq).
  assert (Hlen : length links = nrows df).
  { unfold well_formed in Hwf. rewrite forallb_forall in Hwf.
    apply dict_get_some_in in Hlinks. apply Hwf in Hlinks.
    simpl in Hlinks. apply Nat.eqb_eq in Hlinks.
    now rewrite length_map in Hlinks. }
  eexists. exists w'. split; [exact Hrun|].
  split; [reflexivity|].
  split.
  { unfold well_formed, df_setitem. simpl.
    apply (forallb_dict_set (fun col => Nat.eqb (length col) (nrows df)));
      [exact Hwf|].
    apply Nat.eqb_eq. now rewrite length_enriched_cells. }
  split; [apply dict_set_others|].
  split.
  { intros name i Hne. unfold cell, df_setitem. simpl.
    now rewrite dict_get_set_other by congruence. }
  split; [intros Hin; now apply keys_dict_set_in|].
  split; [|exact Hreq].
  intros i Hi.
  destruct (nth_error links i) as [u|] eqn:Hu.
  - exists u. split; [reflexivity|].
    unfold cell, df_setitem. simpl. rewrite dict_get_set_same.
    now apply nth_enriched_cells.
  - apply nth_error_None in Hu. lia.
Qed.

Lemma enrichment_preserves_rows_witness :
  let B := Fixture.bs4 Fixture.parse in
  let N := Fixture.net Fixture.table in
  exists df' w',
    enrich_dataframe_column_from_pages Fixture.scraper Fixture.frame "content"
      Fixture.selectors None "link" Fixture.w0 = (Ok df', w')
    /\ nrows df' = 3
    /\ other_columns df' "content" = columns Fixture.frame
    /\ requested (trace w') = ["http://x/d1"; "http://y/d2"; "http://x/d3"].
Proof.
  intros B N.
  destruct (enrichment_preserves_rows B N Fixture.scraper Fixture.frame "content"
              Fixture.selectors None "link" ["/d1"; "http://y/d2"; "/d3"]
              Fixture.w0 eq_refl eq_refl)
    as (df' & w' & Hrun & Hrows & _ & Hothers & _ & _ & _ & Hreq).
  exists df', w'. repeat split; assumption.
Defined.

(** C10: a link that starts with "http" is fetched as it is, any other
    link is fetched at [link_base ++ link], where [link_base] lost its
    trailing slashes at construction.  This is defined on strings only: a
    [None] link, which the extractor produces for a matched tag without
    [href], raises [AttributeError] before any request, and enrichment
    stops there instead of writing a null cell. *)
Theorem link_resolution (B : Bs4) (N : Requests) (self : GenericScraper)
    (selectors : list string) (attr : PyStr) (w : World) :
  (forall b s e pp lb en,
      link_base (GenericScraper_init b s e pp lb en) = Py.rstrip "/" lb
      /\ last_char (Py.rstrip "/" lb) <> Some "/"%char
      /\ exists k, lb = Py.rstrip "/" lb ++ slashes k)
  /\ (forall u,
        let out := get_value_from_product_page self (Some u) selectors attr w in
        (exists v, fst out = Ok v)
        /\ requested (trace (snd out))
           = (requested (trace w)
                ++ [if Py.startswith u "http" then u
                    else (link_base self ++ u)%string])%list)
  /\ get_value_from_product_page self None selectors attr w
     = (Raise (AttributeError none_has_no_startswith), w)
  /\ (forall df column_name link_column pre post,
        dict_get (columns df) link_column
        = Some (map Some pre ++ None :: post)%list ->
        fst (enrich_dataframe_column_from_pages self df column_name selectors
               attr link_column w)
        = Raise (AttributeError none_has_no_startswith))
  /\ (forall soup selector i el,
        Py.contains "[href]" selector = true ->
        nth_error (select soup selector) i = Some el ->
        tag_get el "href" = None ->
        nth_error (extract_field soup selector) i = Some None).
Proof.
  split.
  { intros b s e pp lb en. split; [reflexivity|].
    destruct (rstrip_slash_spec lb) as [Hk Hlast]. now split. }
  split.
  { intros u out. subst out. rewrite get_value_run. simpl.
    split; [eexists; reflexivity|].
    now rewrite requested_app; simpl; rewrite requested_response_events. }
  split; [reflexivity|].
  split.
  { intros df column_name link_column pre post Hlinks.
    unfold enrich_dataframe_column_from_pages, df_getitem, bind.
    rewrite Hlinks. unfold ret at 1.
    pose proof (enrich_loop_none self selectors attr post pre w) as Hnone.
    match goal with
    | |- context [mapM ?f ?l ?w0] => destruct (mapM f l w0) as [[ys | e] w1]
    end; simpl in *; congruence. }
  intros soup selector i el Hhref Hel Hnone.
  rewrite (extract_field_nth soup selector i el Hel), Hhref. now rewrite Hnone.
Qed.

Lemma link_resolution_witness :
  let B := Fixture.bs4 Fixture.parse in
  let N := Fixture.net Fixture.table in
  link_base Fixture.scraper = "http://x"
  /\ requested (trace (snd (get_value_from_product_page Fixture.scraper
                              (Some "/d1") Fixture.selectors None Fixture.w0)))
     = ["http://x/d1"]
  /\ requested (trace (snd (get_value_from_product_page Fixture.scraper
                              (Some "http://y/d2") Fixture.selectors None
                              Fixture.w0)))
     = ["http://y/d2"]
  /\ fst (enrich_dataframe_column_from_pages Fixture.scraper Fixture.frame_none
            "content" Fixture.selectors None "link" Fixture.w0)
     = Raise (AttributeError none_has_no_startswith)
  /\ nth_error (extract_field Fixture.listing "a.item[href] span") 0
     = Some None.
Proof.
  intros B N.
  destruct (link_resolution B N Fixture.scraper Fixture.selectors None Fixture.w0)
    as (Hbase & Hurl & _ & Hnone & Hhref).
  split; [exact (proj1 (Hbase "http://x/list" 1%Z 1%Z default_page_param
                          "http://x/" false))|].
  split; [exact (proj2 (Hurl "/d1"))|].
  split; [exact (proj2 (Hurl "http://y/d2"))|].
  split.
  - exact (Hnone Fixture.frame_none "content" "link" ["/d1"] [Some "/d3"] eq_refl).
  - exact (Hhref Fixture.listing "a.item[href] span" 0 (Fixture.h2 "label")
             eq_refl eq_refl eq_refl).
Defined.

(** ** An empty selector map *)

(** C6 fails on the code: with an empty selector map, [raw_data] is empty
    on every page that was fetched, and [min] over it raises [ValueError];
    the scrape stops there.  Only a page whose fetch failed is passed
    over.  The run of the fixture, whose listing page is fetched, ends in
    the [ValueError]. *)
Theorem empty_selector_map_raises (B : Bs4) (N : Requests)
    (self : GenericScraper) (field_data : dict (list PyStr))
    (page_num : option Z) (w : World) :
  match page_of_response (requests_get (sent w) (page_url self page_num)) with
  | Some _ =>
      fst (scrape_page self [] field_data page_num w)
      = Raise (ValueError "min() arg is an empty sequence")
  | None => fst (scrape_page self [] field_data page_num w) = Ok field_data
  end
  /\ @scrape_listing_data (Fixture.bs4 Fixture.parse) (Fixture.net Fixture.table)
       Fixture.scraper [] Fixture.w0
     = (Raise (ValueError "min() arg is an empty sequence"),
        @after_request (Fixture.net Fixture.table) Fixture.scraper
          "http://x/list" Fixture.w0).
Proof.
  split; [|reflexivity].
  unfold scrape_page, bind. rewrite request_page_run.
  now destruct (page_of_response (requests_get (sent w) (page_url self page_num))).
Qed.

(** ** The choice of the saver *)

Lemma bind_assoc {A B C} (m : M A) (f : A -> M B) (g : B -> M C) (w : World) :
  bind (bind m f) g w = bind m (fun a => bind (f a) g) w.
Proof. unfold bind. now destruct (m w) as [[a | e] w1]. Qed.

Lemma bind_ext {A B} (m : M A) (f g : A -> M B) (w : World) :
  (forall a w1, f a w1 = g a w1) -> bind m f w = bind m g w.
Proof. intros H. unfold bind. destruct (m w) as [[a | e] w1]; auto. Qed.

Lemma get_saver_unsupported (strategy : string) (w : World) :
  supported strategy = false ->
  get_saver strategy w
  = (Raise (ValueError ("Unsupported save strategy: " ++ strategy)), w).
Proof.
  unfold supported, get_saver. intros H.
  apply orb_false_iff in H as [H Hxml]. apply orb_false_iff in H as [Hcsv Hjson].
  now rewrite Hcsv, Hjson, Hxml.
Qed.

Section MainRun.

Context `{B : Bs4} `{N : Requests} `{P : Platform}.

(** [main] is the scrape and the enrichment, then the count, the choice
    of the saver and the save. *)
Lemma main_split (config : Config) (w : World) :
  main config w
  = (df <- scrape_and_enrich config ;;
     print ("✅ Extracted " ++ Py.str_of_int (Z.of_nat (nrows df)) ++ " records") ;;
     saver <- get_saver (cfg_save_strategy config) ;;
     save saver df (cfg_output_name config)) w.
Proof.
  unfold main, scrape_and_enrich. cbv zeta.
  rewrite bind_assoc. apply bind_ext. intros _ w1.
  rewrite bind_assoc. apply bind_ext. intros data w2.
  rewrite bind_assoc. apply bind_ext. intros df w3.
  reflexivity.
Qed.

(** With an unsupported strategy the run is the scrape and the enrichment
    followed by the error. *)
Lemma main_unsupported (config : Config) (w : World) :
  supported (cfg_save_strategy config) = false ->
  main config w
  = match scrape_and_enrich config w with
    | (Ok df, w1) =>
        (Raise (ValueError ("Unsupported save strategy: "
                              ++ cfg_save_strategy config)),
         mkWorld
           (trace w1 ++ [Print ("✅ Extracted "
                                  ++ Py.str_of_int (Z.of_nat (nrows df))
                                  ++ " records")])
           (sent w1) (dirs w1) (files w1))
    | (Raise e, w1) => (Raise e, w1)
    end.
Proof.
  intros Hs. rewrite main_split. unfold bind at 1.
  destruct (scrape_and_enrich config w) as [[df | e] w1]; [|reflexivity].
  unfold bind, print, emit. now rewrite get_saver_unsupported.
Qed.

(** Without pagination the scrape starts with the request of the base
    URL, whatever happens next. *)
Lemma scrape_and_enrich_first_request (config : Config) (w : World) :
  get_default (cfg_pagination config) false = false ->
  exists rest,
    requested (trace (snd (scrape_and_enrich config w)))
    = (requested (trace w) ++ Py.rstrip "/" (cfg_base_url config) :: rest)%list.
Proof.
  intros Hp. unfold scrape_and_enrich. cbv zeta. rewrite Hp.
  set (self := GenericScraper_init _ _ _ _ _ false).
  unfold bind at 1. unfold print at 1, emit. cbv beta iota.
  set (w0 := mkWorld _ _ _ _).
  match goal with
  | |- context [bind ?m ?k w0] =>
      destruct (bind_extends_trace m k w0) as (t1 & Ht1)
  end.
  { intros data. apply network_only_bind; [apply network_only_create_dataframe|].
    intros df. destruct (get_default (cfg_enrich config) false);
      [|apply network_only_ret].
    apply network_only_bind; [apply network_only_emit|]. intros _.
    apply network_only_bind.
    - destruct (cfg_enrich_selectors config);
        [apply network_only_ret | apply network_only_raise].
    - intros. apply network_only_enrich. }
  rewrite Ht1. unfold scrape_listing_data, pages. simpl pagination_enabled.
  cbn [foldM].
  match goal with
  | |- context [bind ?m ?k w0] =>
      destruct (bind_extends_trace m k w0) as (t2 & Ht2)
  end.
  { intros. apply network_only_ret. }
  rewrite Ht2. unfold scrape_page.
  match goal with
  | |- context [bind ?m ?k w0] =>
      destruct (bind_extends_trace m k w0) as (t3 & Ht3)
  end.
  { intros [soup|]; [apply network_only_merge_page | apply network_only_ret]. }
  rewrite Ht3, request_page_run. simpl snd.
  rewrite !requested_app, requested_after_request. unfold w0. simpl trace.
  rewrite requested_app. simpl. rewrite app_nil_r, <- !app_assoc. simpl.
  eexists. reflexivity.
Qed.

End MainRun.

(** C7 (as amended): with an unsupported save-strategy name the run ends
    in an error and writes nothing, but the error is raised by
    [get_saver], which [main] calls after the scrape and the enrichment:
    the requests sent are those of the scrape and the enrichment, and
    without pagination the base URL has been requested before the error.
    When the scrape and the enrichment succeed the error is the
    [ValueError] of [get_saver], raised right after the record count is
    printed. *)
Theorem unsupported_strategy_raises_after_scrape (B : Bs4) (N : Requests)
    (P : Platform) (config : Config) (w : World) :
  supported (cfg_save_strategy config) = false ->
  let out := main config w in
  (exists e, fst out = Raise e)
  /\ dirs (snd out) = dirs w /\ files (snd out) = files w
  /\ requested (trace (snd out))
     = requested (trace (snd (scrape_and_enrich config w)))
  /\ (forall df w1,
        scrape_and_enrich config w = (Ok df, w1) ->
        out = (Raise (ValueError ("Unsupported save strategy: "
                                    ++ cfg_save_strategy config)),
               mkWorld
                 (trace w1 ++ [Print ("✅ Extracted "
                                        ++ Py.str_of_int (Z.of_nat (nrows df))
                                        ++ " records")])
                 (sent w1) (dirs w1) (files w1)))
  /\ (get_default (cfg_pagination config) false = false ->
      exists rest,
        requested (trace (snd out))
        = (requested (trace w) ++ Py.rstrip "/" (cfg_base_url config) :: rest)%list).
Proof.
  intros Hs out.
  assert (Hmain := main_unsupported config w Hs). fold out in Hmain.
  destruct (network_only_scrape_and_enrich config w) as (t & Ht & Hd & Hf).
  assert (Hreq : requested (trace (snd out))
                 = requested (trace (snd (scrape_and_enrich config w)))).
  { rewrite Hmain. destruct (scrape_and_enrich config w) as [[df | e] w1];
      simpl; [|reflexivity].
    rewrite requested_app. simpl. apply app_nil_r. }
  split; [|split; [|split; [|split; [exact Hreq | split]]]].
  - rewrite Hmain. destruct (scrape_and_enrich config w) as [[df | e] w1];
      eexists; reflexivity.
  - rewrite Hmain. now destruct (scrape_and_enrich config w) as [[df | e] w1].
  - rewrite Hmain. now destruct (scrape_and_enrich config w) as [[df | e] w1].
  - intros df w1 Hrun. rewrite Hmain, Hrun. reflexivity.
  - intros Hp. rewrite Hreq. now apply scrape_and_enrich_first_request.
Qed.

Lemma unsupported_strategy_raises_after_scrape_witness :
  let B := Fixture.bs4 Fixture.parse in
  let N := Fixture.net Fixture.table in
  let P := Fixture.platform Fixture.now in
  fst (main (Fixture.config "sqlite") Fixture.w0)
  = Raise (ValueError "Unsupported save strategy: sqlite")
  /\ files (snd (main (Fixture.config "sqlite") Fixture.w0)) = [].
Proof.
  intros B N P.
  destruct (unsupported_strategy_raises_after_scrape B N P
              (Fixture.config "sqlite") Fixture.w0 eq_refl)
    as (_ & _ & Hfiles & _ & Herr & _).
  split; [|exact Hfiles].
  now rewrite (Herr _ _ eq_refl).
Defined.

(** C7 (as stated) fails: the strategy name "sqlite" is not supported, and
    the run that is configured with it requests the listing page before
    it stops with the error. *)
Lemma unsupported_strategy_counterexample :
  let B := Fixture.bs4 Fixture.parse in
  let N := Fixture.net Fixture.table in
  let P := Fixture.platform Fixture.now in
  supported "sqlite" = false
  /\ fst (main (Fixture.config "sqlite") Fixture.w0)
     = Raise (ValueError "Unsupported save strategy: sqlite")
  /\ requested (trace (snd (main (Fixture.config "sqlite") Fixture.w0)))
     = ["http://x/list"]
  /\ ~ aborts_before_network (main (Fixture.config "sqlite")) Fixture.w0.
Proof.
  intros B N P. repeat split.
  intros [_ H]. vm_compute in H. discriminate.
Qed.

(** ** File sinks *)

Lemma prefix_empty (s : string) : String.prefix "" s = true.
Proof. now destruct s. Qed.

Lemma has_slash_cons (c : ascii) (s : string) :
  Py.contains "/" (String c s) = Ascii.eqb c "/" || Py.contains "/" s.
Proof.
  cbn [Py.contains String.prefix]. rewrite prefix_empty.
  destruct (ascii_dec "/" c) as [<- | Hne]; [reflexivity|].
  destruct (Ascii.eqb c "/") eqn:E; [|reflexivity].
  apply Ascii.eqb_eq in E. congruence.
Qed.

Lemma has_slash_app (s t : string) :
  Py.contains "/" (s ++ t) = Py.contains "/" s || Py.contains "/" t.
Proof.
  induction s as [|c s IH].
  - now destruct t.
  - change (String c s ++ t) with (String c (s ++ t)).
    now rewrite !has_slash_cons, IH, orb_assoc.
Qed.

Lemma digit_not_slash (n : nat) : Ascii.eqb (digit n) "/" = false.
Proof.
  unfold digit. assert (H : n mod 10 < 10) by (apply Nat.mod_upper_bound; lia).
  revert H. generalize (n mod 10). intros d Hd.
  do 10 (destruct d as [|d]; [reflexivity|]). lia.
Qed.

Lemma no_slash_in_timestamp (now : DateTime) :
  Py.contains "/" (strftime_Ymd_HM now) = false.
Proof.
  unfold strftime_Ymd_HM, four_digits, two_digits.
  cbn [append].
  repeat (rewrite has_slash_cons, ?digit_not_slash; cbn [orb]).
  reflexivity.
Qed.

(** The last directory of the chain is the directory asked for. *)
Lemma dir_chain_self (rest : string) :
  forall pre, In (pre ++ rest) (dir_chain pre rest).
Proof.
  induction rest as [|c rest IH]; intros pre; cbn [dir_chain].
  - rewrite append_nil_r. now left.
  - destruct (Ascii.eqb c "/") eqn:E.
    + apply Ascii.eqb_eq in E. subst c. right.
      specialize (IH (pre ++ "/")). now rewrite append_assoc in IH.
    + specialize (IH (pre ++ String c "")). now rewrite append_assoc in IH.
Qed.

Lemma dir_exists_add_same (ds : list string) (d : string) :
  dir_exists (add_dir ds d) d = true.
Proof.
  unfold add_dir. destruct (dir_exists ds d) eqn:E; [exact E|].
  unfold dir_exists. rewrite existsb_app. simpl.
  now rewrite String.eqb_refl, orb_true_r.
Qed.

Lemma dir_exists_add_keeps (ds : list string) (d x : string) :
  dir_exists ds x = true -> dir_exists (add_dir ds d) x = true.
Proof.
  intros H. unfold add_dir. destruct (dir_exists ds d); [exact H|].
  unfold dir_exists in *. now rewrite existsb_app, H.
Qed.

Lemma makedirs_keeps (chain : list string) :
  forall ds x,
    dir_exists ds x = true -> dir_exists (fold_left add_dir chain ds) x = true.
Proof.
  induction chain as [|d chain IH]; intros ds x H; simpl; [exact H|].
  apply IH. now apply dir_exists_add_keeps.
Qed.

Lemma makedirs_creates (chain : list string) :
  forall ds x,
    In x chain -> dir_exists (fold_left add_dir chain ds) x = true.
Proof.
  induction chain as [|d chain IH]; intros ds x Hin; simpl; [easy|].
  destruct Hin as [-> | Hin].
  - apply makedirs_keeps, dir_exists_add_same.
  - now apply IH.
Qed.

Lemma save_to_run (path content msg : string) (w : World) :
  save_to path (Ok content) msg w
  = (Ok tt,
     mkWorld (trace w ++ [Print msg]) (sent w)
       (fold_left add_dir (dir_chain "" (dirname path)) (dirs w))
       (dict_set (files w) path content)).
Proof.
  unfold save_to, bind, makedirs, lift, write_file, print, emit.
  cbn [trace sent dirs files].
  assert (H : dir_exists
                ("" :: fold_left add_dir (dir_chain "" (dirname path)) (dirs w))
                (dirname path) = true).
  { unfold dir_exists. cbn [existsb]. apply orb_true_iff. right.
    apply makedirs_creates. apply (dir_chain_self (dirname path) ""). }
  now rewrite H.
Qed.

Lemma save_is_save_to (P : Platform) (saver : SaveStrategy) (df : DataFrame)
    (name : string) (w : World) :
  save saver df name w
  = save_to (output_path saver name (datetime_now (trace w)))
      (serialiser saver df)
      (saved_message saver (output_path saver name (datetime_now (trace w)))) w.
Proof.
  destruct saver; cbn [save serialiser saved_message];
    unfold CsvStrategy_save, JsonStrategy_save, XmlStrategy_save, output_path,
      save_to;
    unfold bind at 1; unfold _timestamp; cbn [format_dir format_ext];
    rewrite ?append_assoc; reflexivity.
Qed.

Lemma upto_last_slash_app (t : string) :
  Py.contains "/" t = false ->
  forall d, upto_last_slash (d ++ "/" ++ t) = d ++ "/".
Proof.
  intros Ht. induction d as [|c d IH].
  - change ("" ++ "/" ++ t) with (String "/" t).
    cbn [upto_last_slash]. now rewrite Ht.
  - change (String c d ++ "/" ++ t) with (String c (d ++ String "/" t)).
    cbn [upto_last_slash].
    rewrite has_slash_app, has_slash_cons, orb_true_r.
    change (d ++ String "/" t) with (d ++ "/" ++ t). now rewrite IH.
Qed.

Lemma dirname_output_path (saver : SaveStrategy) (name : string) (now : DateTime) :
  Py.contains "/" name = false ->
  dirname (output_path saver name now) = format_dir saver.
Proof.
  intros Hname.
  assert (Htail : Py.contains "/"
                    (name ++ "_" ++ strftime_Ymd_HM now ++ "." ++ format_ext saver)
                  = false).
  { rewrite !has_slash_app, Hname, no_slash_in_timestamp.
    now destruct saver. }
  unfold output_path, dirname.
  rewrite (upto_last_slash_app _ Htail).
  now destruct saver.
Qed.

(** C9 (as amended): each of the three file strategies writes the
    serialised record set to
    [<per-format directory>/<name>_<YYYYMMDD>_<HHMM>.<ext>], with an
    underscore between the date and the time and nothing finer than the
    minute; the directory of the path and its ancestors exist afterwards,
    whether they existed before or not, and directories that existed are
    kept.  For a name without a slash that directory is the per-format
    directory. *)
Theorem file_sink_path (P : Platform) (saver : SaveStrategy) (df : DataFrame)
    (name content : string) (w : World) :
  serialiser saver df = Ok content ->
  let now := datetime_now (trace w) in
  let path :=
    format_dir saver ++ "/" ++ name ++ "_"
      ++ four_digits (year now) ++ two_digits (month now) ++ two_digits (day now)
      ++ "_" ++ two_digits (hour now) ++ two_digits (minute now)
      ++ "." ++ format_ext saver in
  let out := save saver df name w in
  fst out = Ok tt
  /\ files (snd out) = dict_set (files w) path content
  /\ dir_exists (dirs (snd out)) (dirname path) = true
  /\ (forall d, In d (dir_chain "" (dirname path)) ->
                dir_exists (dirs (snd out)) d = true)
  /\ (forall d, dir_exists (dirs w) d = true ->
                dir_exists (dirs (snd out)) d = true)
  /\ (Py.contains "/" name = false -> dirname path = format_dir saver)
  /\ (forall now', same_minute now' now -> output_path saver name now' = path).
Proof.
  intros Hser now path out.
  assert (Hpath : output_path saver name now = path).
  { unfold output_path, path, strftime_Ymd_HM, four_digits, two_digits.
    now rewrite !append_assoc. }
  assert (Hout : out
                 = (Ok tt,
                    mkWorld (trace w ++ [Print (saved_message saver path)])
                      (sent w)
                      (fold_left add_dir (dir_chain "" (dirname path)) (dirs w))
                      (dict_set (files w) path content))).
  { unfold out. rewrite save_is_save_to. fold now. rewrite Hpath, Hser.
    apply save_to_run. }
  rewrite Hout. cbn [fst snd files dirs].
  split; [reflexivity|]. split; [reflexivity|].
  split; [apply makedirs_creates, (dir_chain_self (dirname path) "")|].
  split; [intros d; apply makedirs_creates|].
  split; [intros d; apply makedirs_keeps|].
  split.
  - intros Hname. rewrite <- Hpath. now apply dirname_output_path.
  - intros now' (Hy & Hmo & Hd & Hh & Hmi). rewrite <- Hpath.
    unfold output_path, strftime_Ymd_HM. now rewrite Hy, Hmo, Hd, Hh, Hmi.
Qed.

Lemma file_sink_path_witness :
  let P := Fixture.platform Fixture.now in
  files (snd (save XmlStrategy Fixture.frame "run" Fixture.w0))
  = [("outputs/xml/run_20261103_1005.xml", "xml")]
  /\ dir_exists (dirs (snd (save XmlStrategy Fixture.frame "run" Fixture.w0)))
       "outputs/xml" = true.
Proof.
  intros P.
  destruct (file_sink_path P XmlStrategy Fixture.frame "run" "xml" Fixture.w0
              eq_refl)
    as (_ & Hfiles & Hdir & _ & _ & Hname & _).
  split; [exact Hfiles|].
  rewrite (Hname eq_refl) in Hdir. exact Hdir.
Defined.

(** C9 (as stated) fails on the file name: the timestamp the code writes
    has an underscore between the date and the time, so the file is not
    at [{name}_{YYYYMMDDHHmm}.{ext}]. *)
Lemma file_sink_name_counterexample :
  let P := Fixture.platform Fixture.now in
  spec_output_path CsvStrategy "run" Fixture.now
  = "outputs/csv/run_202611031005.csv"
  /\ files (snd (save CsvStrategy Fixture.frame "run" Fixture.w0))
     = [("outputs/csv/run_20261103_1005.csv", "csv")]
  /\ dict_get (files (snd (save CsvStrategy Fixture.frame "run" Fixture.w0)))
       (spec_output_path CsvStrategy "run" Fixture.now) = None.
Proof. intros P. vm_compute. repeat split. Qed.

(** ** The listing loop *)

(** The loop of [extend_fields] prints nothing and requests nothing. *)
Lemma extend_loop_world (raw_data : dict (list PyStr)) (min_len : nat) (w : World) :
  forall ks fd, snd (foldM (extend_step raw_data min_len) ks fd w) = w.
Proof.
  induction ks as [|k ks IH]; intros fd; cbn [foldM]; [reflexivity|].
  unfold bind, extend_step.
  destruct (dict_get raw_data k); [|reflexivity].
  destruct (dict_get fd k); [|reflexivity].
  unfold ret. apply IH.
Qed.

(** Aligning a page sends no request, whether it raises or not. *)
Lemma merge_page_quiet (page_num : option Z) (raw_data field_data : dict (list PyStr))
    (w : World) :
  requested (trace (snd (merge_page page_num raw_data field_data w)))
  = requested (trace w).
Proof.
  unfold merge_page, bind, lift.
  destruct (py_min (map (@length PyStr) (values raw_data))) as [m | e];
    [|reflexivity].
  destruct (existsb _ (values raw_data)).
  - unfold print, emit, extend_fields. rewrite extend_loop_world.
    cbn [trace]. rewrite requested_app. simpl. apply app_nil_r.
  - unfold ret, extend_fields. now rewrite extend_loop_world.
Qed.

Section Listing.

Context `{B : Bs4} `{N : Requests}.

(** Every iteration sends exactly one request, to the URL of its page. *)
Lemma scrape_page_requests self field_selectors field_data page_num (w : World) :
  requested (trace (snd (scrape_page self field_selectors field_data page_num w)))
  = (requested (trace w) ++ [page_url self page_num])%list.
Proof.
  unfold scrape_page, bind. rewrite request_page_run.
  destruct (page_of_response _) as [soup|].
  - now rewrite merge_page_quiet, requested_after_request.
  - unfold ret. cbn [snd]. apply requested_after_request.
Qed.

(** With at least one field, and distinct keys, an iteration never raises
    and keeps the keys of the record set. *)
Lemma scrape_page_ok self field_selectors field_data page_num (w : World) :
  NoDup (keys field_selectors) ->
  field_selectors <> [] ->
  keys field_data = keys field_selectors ->
  exists fd',
    fst (scrape_page self field_selectors field_data page_num w) = Ok fd'
    /\ keys fd' = keys field_selectors.
Proof.
  intros Hnd Hne Hkeys. unfold scrape_page, bind. rewrite request_page_run.
  destruct (page_of_response _) as [soup|].
  - destruct (merge_page_run page_num (extract_fields soup field_selectors)
                field_data (after_request self (page_url self page_num) w))
      as (m & fd' & _ & _ & Hrun & Hk & _).
    + now rewrite Hkeys.
    + rewrite keys_extract_fields by exact Hnd. now symmetry.
    + rewrite extract_fields_map by exact Hnd.
      destruct field_selectors; [congruence | discriminate].
    + exists fd'. rewrite Hrun. split; [reflexivity | congruence].
  - exists field_data. split; [reflexivity | exact Hkeys].
Qed.

Lemma listing_loop self field_selectors :
  NoDup (keys field_selectors) ->
  field_selectors <> [] ->
  forall ps field_data (w : World),
    keys field_data = keys field_selectors ->
    exists fd' w',
      foldM (scrape_page self field_selectors) ps field_data w = (Ok fd', w')
      /\ keys fd' = keys field_selectors
      /\ requested (trace w')
         = (requested (trace w) ++ map (page_url self) ps)%list.
Proof.
  intros Hnd Hne. induction ps as [|p ps IH]; intros fd w Hkeys; cbn [foldM map].
  - exists fd, w. unfold ret. now rewrite app_nil_r.
  - destruct (scrape_page_ok self field_selectors fd p w Hnd Hne Hkeys)
      as (fd1 & Hrun & Hk1).
    pose proof (scrape_page_requests self field_selectors fd p w) as Hreq.
    unfold bind.
    destruct (scrape_page self field_selectors fd p w) as [r w1].
    cbn [fst snd] in Hrun, Hreq. subst r.
    destruct (IH fd1 w1 Hk1) as (fd' & w' & Hloop & Hk & Hreq').
    exists fd', w'. split; [exact Hloop|]. split; [exact Hk|].
    now rewrite Hreq', Hreq, <- app_assoc.
Qed.

(** The scrape requests the URLs of the Pager, in order, and returns one
    sequence per field. *)
Lemma scrape_listing_data_ok self field_selectors (w : World) :
  NoDup (keys field_selectors) ->
  field_selectors <> [] ->
  exists data w',
    scrape_listing_data self field_selectors w = (Ok data, w')
    /\ keys data = keys field_selectors
    /\ requested (trace w') = (requested (trace w) ++ page_urls self)%list.
Proof.
  intros Hnd Hne. unfold scrape_listing_data, page_urls.
  apply listing_loop; try assumption.
  now apply keys_empty_field_data.
Qed.

(** Without pagination one request is sent, whatever the selectors. *)
Lemma scrape_listing_data_single self field_selectors (w : World) :
  pagination_enabled self = false ->
  requested (trace (snd (scrape_listing_data self field_selectors w)))
  = (requested (trace w) ++ [base_url self])%list.
Proof.
  intros Hp. unfold scrape_listing_data, pages. rewrite Hp. cbn [foldM].
  pose proof (scrape_page_requests self field_selectors
                (empty_field_data field_selectors) None w) as Hreq.
  unfold bind.
  destruct (scrape_page self field_selectors (empty_field_data field_selectors)
              None w) as [[fd | e] w1]; exact Hreq.
Qed.

End Listing.

(** C3 (as amended): the URLs are built on the base URL with its trailing
    slashes removed.  Without pagination there is one URL, that base,
    whatever the page range, and the scrape requests it and nothing else;
    with pagination the URLs are base + page_param + p for
    p = start_page, ..., end_page in ascending order, and none when
    end_page < start_page.  A scrape over at least one field requests
    exactly these URLs, in this order, and raises nothing. *)
Theorem pager_urls (b : string) (s e : Z) (pp lb : string) (en : bool) :
  let self := GenericScraper_init b s e pp lb en in
  let base := Py.rstrip "/" b in
  page_urls self = spec_page_urls base s e pp en
  /\ (exists k, b = base ++ slashes k) /\ last_char base <> Some "/"%char
  /\ (en = false ->
      page_urls self = [base]
      /\ forall (B : Bs4) (N : Requests) field_selectors w,
           requested (trace (snd (scrape_listing_data self field_selectors w)))
           = (requested (trace w) ++ [base])%list)
  /\ (en = true ->
      length (page_urls self) = Z.to_nat (e - s + 1)
      /\ (forall i, (0 <= i <= e - s)%Z ->
            nth_error (page_urls self) (Z.to_nat i)
            = Some (base ++ pp ++ Py.str_of_int (s + i)))
      /\ ((e < s)%Z -> page_urls self = []))
  /\ (forall (B : Bs4) (N : Requests) field_selectors w,
        distinct (keys field_selectors) = true ->
        field_selectors <> [] ->
        exists data w',
          scrape_listing_data self field_selectors w = (Ok data, w')
          /\ requested (trace w')
             = (requested (trace w) ++ page_urls self)%list).
Proof.
  intros self base.
  assert (Hspec : page_urls self = spec_page_urls base s e pp en)
    by apply page_urls_spec.
  split; [exact Hspec|].
  split; [apply rstrip_slash_spec|].
  split; [apply rstrip_slash_spec|].
  split; [|split].
  - intros ->. split; [reflexivity|].
    intros B N field_selectors w.
    now apply scrape_listing_data_single.
  - rewrite Hspec. unfold spec_page_urls. intros ->.
    split; [now rewrite length_map, length_seq|].
    split.
    + intros i Hi.
      rewrite nth_error_map, nth_error_seq.
      destruct (Nat.ltb_spec (Z.to_nat i) (Z.to_nat (e - s + 1))) as [_|Hge]; [|lia].
      simpl. now rewrite Z2Nat.id by lia.
    + intros Hlt. replace (Z.to_nat (e - s + 1)) with 0 by lia. reflexivity.
  - intros B N field_selectors w Hd Hne. apply distinct_NoDup in Hd.
    destruct (scrape_listing_data_ok self field_selectors w Hd Hne)
      as (data & w' & Hrun & _ & Hreq).
    now exists data, w'.
Qed.

Lemma pager_urls_witness :
  page_urls (GenericScraper_init "http://x/list/" 2 4 "?page=" "" true)
  = ["http://x/list?page=2"; "http://x/list?page=3"; "http://x/list?page=4"]
  /\ page_urls (GenericScraper_init "http://x/list/" 2 1 "?page=" "" true) = []
  /\ page_urls (GenericScraper_init "http://x/list/" 2 9 "?page=" "" false)
     = ["http://x/list"]
  /\ exists data w',
       @scrape_listing_data (Fixture.bs4 Fixture.parse)
         (Fixture.net Fixture.table)
         (GenericScraper_init "http://x/list/" 2 4 "?page=" "" true)
         Fixture.fields Fixture.w0 = (Ok data, w')
       /\ requested (trace w')
          = ["http://x/list?page=2"; "http://x/list?page=3";
             "http://x/list?page=4"].
Proof.
  split; [|split; [|split]].
  - exact (proj1 (pager_urls "http://x/list/" 2 4 "?page=" "" true)).
  - destruct (pager_urls "http://x/list/" 2 1 "?page=" "" true)
      as (_ & _ & _ & _ & H & _).
    destruct (H eq_refl) as (_ & _ & Hempty). apply Hempty. lia.
  - destruct (pager_urls "http://x/list/" 2 9 "?page=" "" false)
      as (_ & _ & _ & H & _).
    exact (proj1 (H eq_refl)).
  - destruct (pager_urls "http://x/list/" 2 4 "?page=" "" true)
      as (_ & _ & _ & _ & _ & H).
    destruct (H (Fixture.bs4 Fixture.parse) (Fixture.net Fixture.table)
                Fixture.fields Fixture.w0 eq_refl)
      as (data & w' & Hrun & Hreq); [discriminate|].
    now exists data, w'.
Defined.

(** C3 (as stated) fails on a base URL that ends with a slash: the URL
    requested is not the configured base URL, with or without
    pagination. *)
Lemma pager_base_url_counterexample :
  page_urls (GenericScraper_init "http://x/list/" 1 1 "?page=" "" false)
    <> spec_page_urls "http://x/list/" 1 1 "?page=" false
  /\ page_urls (GenericScraper_init "http://x/list/" 1 2 "?page=" "" true)
    <> spec_page_urls "http://x/list/" 1 2 "?page=" true.
Proof. split; vm_compute; discriminate. Qed.

(* ================================================================== *)
(** * Further properties *)

(** ** The record set of a scrape *)

(** Two dictionaries with the same distinct keys, in the same order, and
    the same value at every key are the same dictionary. *)
Lemma dict_ext {V} (d1 : dict V) :
  forall d2,
    keys d1 = keys d2 ->
    NoDup (keys d1) ->
    (forall k, dict_get d1 k = dict_get d2 k) ->
    d1 = d2.
Proof.
  induction d1 as [|[k v1] d1 IH]; intros [|[k' v2] d2] Hkeys Hnd Hget;
    try discriminate; [reflexivity|].
  simpl in Hkeys. injection Hkeys as <- Hkeys.
  inversion Hnd as [|? ? Hk Hnd']; subst.
  pose proof (Hget k) as Hk0. simpl in Hk0. rewrite String.eqb_refl in Hk0.
  injection Hk0 as <-. f_equal.
  apply IH; [exact Hkeys | exact Hnd' |].
  intros k0. specialize (Hget k0). simpl in Hget.
  destruct (String.eqb k k0) eqn:E; [|exact Hget].
  apply String.eqb_eq in E. subst k0.
  assert (H1 : dict_get d1 k = None).
  { destruct (dict_get d1 k) eqn:E1; [|reflexivity].
    elim Hk. apply dict_get_in_keys. congruence. }
  assert (H2 : dict_get d2 k = None).
  { destruct (dict_get d2 k) eqn:E2; [|reflexivity].
    elim Hk. rewrite Hkeys. apply dict_get_in_keys. congruence. }
  congruence.
Qed.

Lemma keys_map_values {A} (g : string * string -> A) (fs : dict string) :
  keys (map (fun kv => (fst kv, g kv)) fs) = keys fs.
Proof. unfold keys. now rewrite map_map. Qed.

Lemma dict_get_map_values {A} (g : string * string -> A) (fs : dict string)
    (kv : string * string) :
  NoDup (keys fs) ->
  In kv fs ->
  dict_get (map (fun kv => (fst kv, g kv)) fs) (fst kv) = Some (g kv).
Proof.
  intros Hnd Hin. apply dict_get_nodup.
  - now rewrite keys_map_values.
  - apply (in_map (fun kv => (fst kv, g kv)) _ _ Hin).
Qed.

Lemma in_keys_entry {V} (d : dict V) (k : string) :
  In k (keys d) -> exists v, In (k, v) d.
Proof.
  unfold keys. intros H. apply in_map_iff in H as ([k' v] & <- & Hin).
  now exists v.
Qed.

Section ListingData.

Context `{B : Bs4} `{N : Requests}.

(** On a page with at least one field [page_min_len] is the least length,
    and no sequence of the page is shorter. *)
Lemma page_min_len_spec (soup : Soup) (field_selectors : dict string) :
  NoDup (keys field_selectors) ->
  field_selectors <> [] ->
  (forall kv, In kv field_selectors ->
              page_min_len soup field_selectors
              <= length (extract_field soup (snd kv)))
  /\ (exists kv, In kv field_selectors
                 /\ length (extract_field soup (snd kv))
                    = page_min_len soup field_selectors).
Proof.
  intros Hnd Hne. unfold page_min_len.
  rewrite extract_fields_map by exact Hnd.
  unfold values. rewrite !map_map. cbn [snd].
  destruct (py_min_spec
              (map (fun kv => length (extract_field soup (snd kv))) field_selectors))
    as (m & Hmin & Hin & Hall).
  { destruct field_selectors; [congruence | discriminate]. }
  rewrite Hmin. split.
  - intros kv Hkv. apply Hall.
    apply (in_map (fun kv => length (extract_field soup (snd kv))) _ _ Hkv).
  - apply in_map_iff in Hin as (kv & Hlen & Hkv). now exists kv.
Qed.

(** Lines 114-119 as a function of the record set: every column gains the
    first [page_min_len] values of its sequence, in the order of the
    fields. *)
Lemma merge_page_columns (page_num : option Z) (soup : Soup)
    (field_selectors : dict string) (cols : string * string -> list PyStr)
    (w : World) :
  NoDup (keys field_selectors) ->
  field_selectors <> [] ->
  exists t,
    merge_page page_num (extract_fields soup field_selectors)
      (map (fun kv => (fst kv, cols kv)) field_selectors) w
    = (Ok (map (fun kv =>
                  (fst kv,
                   (cols kv ++ firstn (page_min_len soup field_selectors)
                                 (extract_field soup (snd kv)))%list))
               field_selectors),
       mkWorld (trace w ++ t) (sent w) (dirs w) (files w))
    /\ requested t = [] /\ slept t = [].
Proof.
  intros Hnd Hne.
  set (raw := extract_fields soup field_selectors).
  set (fd := map (fun kv => (fst kv, cols kv)) field_selectors).
  assert (Hkfd : keys fd = keys field_selectors) by apply keys_map_values.
  assert (Hkraw : keys raw = keys field_selectors)
    by now apply keys_extract_fields.
  destruct (merge_page_run page_num raw fd w) as (m & fd' & Hle & Hex & Hrun & Hk & Hgain).
  { now rewrite Hkfd. }
  { congruence. }
  { unfold raw. rewrite extract_fields_map by exact Hnd.
    destruct field_selectors; [congruence | discriminate]. }
  assert (Hraw : forall kv, In kv field_selectors ->
                   dict_get raw (fst kv) = Some (extract_field soup (snd kv))).
  { intros kv Hkv. unfold raw. rewrite extract_fields_map by exact Hnd.
    now apply (dict_get_map_values (fun kv => extract_field soup (snd kv))). }
  assert (Hm : m = page_min_len soup field_selectors).
  { destruct (page_min_len_spec soup field_selectors Hnd Hne) as (Hall & kv & Hkv & Hlen).
    destruct Hex as (lst & Hlst & Hlen').
    apply Nat.le_antisymm.
    - rewrite <- Hlen. apply Hle.
      apply Hraw, dict_get_some_in in Hkv.
      apply (in_map snd) in Hkv. exact Hkv.
    - rewrite <- Hlen'. unfold values in Hlst.
      apply in_map_iff in Hlst as ([k l] & <- & Hkl). cbn [snd].
      assert (Hkin : In k (keys field_selectors)).
      { rewrite <- Hkraw. apply (in_map fst) in Hkl. exact Hkl. }
      apply in_keys_entry in Hkin as (sel & Hsel).
      pose proof (Hraw _ Hsel) as Hget. cbn [fst snd] in Hget.
      assert (Hl : dict_get raw k = Some l).
      { apply dict_get_nodup; [now rewrite Hkraw | exact Hkl]. }
      rewrite Hl in Hget. injection Hget as ->.
      apply (Hall _ Hsel). }
  subst m.
  eexists. split; [|split].
  - rewrite Hrun. apply f_equal2; [f_equal | reflexivity].
    apply dict_ext.
    + now rewrite Hk, Hkfd, keys_map_values.
    + now rewrite Hk, Hkfd.
    + intros k.
      destruct (in_dec string_dec k (keys field_selectors)) as [Hin | Hout].
      * apply in_keys_entry in Hin as (sel & Hsel).
        pose proof (dict_get_map_values
                      (fun kv => (cols kv ++ firstn (page_min_len soup field_selectors)
                                               (extract_field soup (snd kv)))%list)
                      field_selectors (k, sel) Hnd Hsel) as Hnew.
        cbn [fst snd] in Hnew. rewrite Hnew.
        apply (Hgain k (cols (k, sel)) (extract_field soup sel)).
        -- apply (dict_get_map_values cols field_selectors (k, sel) Hnd Hsel).
        -- apply (Hraw (k, sel) Hsel).
      * assert (H1 : dict_get fd' k = None).
        { destruct (dict_get fd' k) eqn:E; [|reflexivity].
          elim Hout. rewrite <- Hkfd, <- Hk. apply dict_get_in_keys. congruence. }
        rewrite H1. symmetry.
        match goal with
        | |- dict_get ?d k = None => destruct (dict_get d k) eqn:E; [|reflexivity]
        end.
        elim Hout.
        rewrite <- (keys_map_values
                      (fun kv => (cols kv ++ firstn (page_min_len soup field_selectors)
                                               (extract_field soup (snd kv)))%list)).
        apply dict_get_in_keys. congruence.
  - now destruct (existsb _ (values raw)).
  - now destruct (existsb _ (values raw)).
Qed.

(** The loop over the pages. *)
Lemma listing_loop_columns self (field_selectors : dict string) :
  NoDup (keys field_selectors) ->
  field_selectors <> [] ->
  forall ps (cols : string * string -> list PyStr) (w : World),
  exists w',
    foldM (scrape_page self field_selectors) ps
      (map (fun kv => (fst kv, cols kv)) field_selectors) w
    = (Ok (map (fun kv =>
                  (fst kv,
                   (cols kv
                      ++ listing_column self field_selectors (sent w) ps (snd kv))%list))
               field_selectors), w')
    /\ sent w' = sent w + length ps
    /\ slept (trace w') = (slept (trace w) ++ listing_pauses self (sent w) ps)%list
    /\ dirs w' = dirs w /\ files w' = files w.
Proof.
  intros Hnd Hne. induction ps as [|p ps IH]; intros cols w;
    cbn [foldM listing_column listing_pauses length].
  - exists w. unfold ret. split; [|rewrite app_nil_r; repeat split; lia].
    f_equal. f_equal. apply map_ext. intros kv. now rewrite app_nil_r.
  - unfold bind at 1. unfold scrape_page at 1. unfold bind at 1.
    rewrite request_page_run. unfold page_rows.
    destruct (page_of_response (requests_get (sent w) (page_url self p)))
      as [soup|] eqn:Epage.
    + destruct (merge_page_columns p soup field_selectors cols
                  (after_request self (page_url self p) w) Hnd Hne)
        as (t & Hrun & Hreq & Hsl).
      rewrite Hrun.
      match goal with
      | |- context [foldM _ ps (map ?f field_selectors) ?w1] =>
          destruct (IH (fun kv => (cols kv ++ firstn (page_min_len soup field_selectors)
                                                (extract_field soup (snd kv)))%list) w1)
            as (w' & Hloop & Hsent & Hslept & Hd & Hf)
      end.
      exists w'. split.
      * rewrite Hloop. cbn [sent after_request]. f_equal. f_equal.
        apply map_ext. intros kv. now rewrite <- app_assoc.
      * cbn [sent trace dirs files after_request] in *.
        rewrite Hsent, Hslept, Hd, Hf.
        rewrite !slept_app, Hsl. cbn [slept].
        unfold response_events.
        unfold page_of_response in Epage.
        destruct (requests_get (sent w) (page_url self p))
          as [status reason text | e]; [|discriminate].
        destruct (is_http_error status) eqn:Eerr; [discriminate|].
        apply raise_for_status_none with (url := page_url self p) (reason := reason)
          in Eerr.
        rewrite Eerr. cbn [slept app]. rewrite app_nil_r, <- app_assoc.
        repeat split; lia.
    + unfold ret at 1.
      destruct (IH cols (after_request self (page_url self p) w))
        as (w' & Hloop & Hsent & Hslept & Hd & Hf).
      exists w'. split; [exact Hloop|].
      cbn [sent trace dirs files after_request] in *.
      rewrite Hsent, Hslept, Hd, Hf. rewrite slept_app. cbn [slept].
      unfold response_events.
      unfold page_of_response in Epage.
      destruct (requests_get (sent w) (page_url self p))
        as [status reason text | e].
      * destruct (is_http_error status) eqn:Eerr; [|discriminate].
        destruct (raise_for_status (page_url self p) status reason) eqn:Er.
        -- cbn [slept app]. rewrite app_nil_r. repeat split; lia.
        -- apply raise_for_status_none in Er. congruence.
      * cbn [slept app]. rewrite app_nil_r. repeat split; lia.
Qed.

End ListingData.

Lemma forallb_map {A C} (p : C -> bool) (f : A -> C) (l : list A) :
  forallb p (map f l) = forallb (fun x => p (f x)) l.
Proof. induction l as [|x l IH]; simpl; [reflexivity | now rewrite IH]. Qed.

Section ListingRows.

Context `{B : Bs4} `{N : Requests}.

Lemma length_page_rows self (field_selectors : dict string) (n : nat)
    (p : option Z) (kv : string * string) :
  NoDup (keys field_selectors) ->
  In kv field_selectors ->
  length (page_rows self field_selectors n p (snd kv))
  = page_count self field_selectors n p.
Proof.
  intros Hnd Hkv. unfold page_rows, page_count.
  destruct (page_of_response (requests_get n (page_url self p))) as [soup|];
    [|reflexivity].
  apply firstn_length_le.
  apply page_min_len_spec; [exact Hnd | | exact Hkv].
  intros ->. contradiction.
Qed.

Lemma length_listing_column self (field_selectors : dict string)
    (kv : string * string) :
  NoDup (keys field_selectors) ->
  In kv field_selectors ->
  forall ps n,
    length (listing_column self field_selectors n ps (snd kv))
    = listing_rows self field_selectors n ps.
Proof.
  intros Hnd Hkv. induction ps as [|p ps IH]; intros n;
    cbn [listing_column listing_rows]; [reflexivity|].
  now rewrite length_app, length_page_rows, IH.
Qed.

(** When every request fails the loop passes over every page. *)
Lemma listing_loop_offline self (field_selectors : dict string)
    (field_data : dict (list PyStr)) :
  (forall n url, page_of_response (requests_get n url) = None) ->
  forall ps (w : World),
  exists w',
    foldM (scrape_page self field_selectors) ps field_data w = (Ok field_data, w')
    /\ requested (trace w')
       = (requested (trace w) ++ map (page_url self) ps)%list
    /\ slept (trace w') = slept (trace w).
Proof.
  intros Hdown. induction ps as [|p ps IH]; intros w; cbn [foldM map].
  - exists w. unfold ret. now rewrite app_nil_r.
  - unfold bind at 1. unfold scrape_page at 1. unfold bind at 1.
    rewrite request_page_run, Hdown. unfold ret at 1.
    destruct (IH (after_request self (page_url self p) w))
      as (w' & Hloop & Hreq & Hsl).
    exists w'. split; [exact Hloop|].
    rewrite Hreq, Hsl, requested_after_request, <- app_assoc.
    split; [reflexivity|].
    unfold after_request. cbn [trace]. rewrite slept_app. cbn [slept].
    pose proof (Hdown (sent w) (page_url self p)) as Hp.
    unfold page_of_response in Hp. unfold response_events.
    destruct (requests_get (sent w) (page_url self p)) as [status reason text | e].
    + destruct (is_http_error status) eqn:Eerr; [|discriminate].
      destruct (raise_for_status (page_url self p) status reason) eqn:Er.
      * cbn [slept]. apply app_nil_r.
      * apply raise_for_status_none in Er. congruence.
    + cbn [slept]. apply app_nil_r.
Qed.

End ListingRows.

(** X1: over at least one field, the scrape returns, for every field in
    the order of the selector map, the concatenation over the pages, in
    page order, of the page's sequence cut to the least length on that
    page; a page whose fetch failed adds nothing.  One request is sent per
    page. *)
Theorem scrape_listing_data_columns (B : Bs4) (N : Requests)
    (self : GenericScraper) (field_selectors : dict string) (w : World) :
  distinct (keys field_selectors) = true ->
  field_selectors <> [] ->
  exists w',
    scrape_listing_data self field_selectors w
    = (Ok (listing_data self field_selectors (sent w) (pages self)), w')
    /\ sent w' = sent w + length (pages self).
Proof.
  intros Hd Hne. apply distinct_NoDup in Hd.
  destruct (listing_loop_columns self field_selectors Hd Hne (pages self)
              (fun _ => []) w) as (w' & Hrun & Hsent & _).
  exists w'. split; [|exact Hsent].
  unfold scrape_listing_data. rewrite empty_field_data_map by exact Hd.
  unfold keys. rewrite map_map. exact Hrun.
Qed.

Lemma scrape_listing_data_columns_witness :
  let B := Fixture.bs4 Fixture.parse in
  let N := Fixture.net Fixture.table in
  fst (scrape_listing_data Fixture.scraper Fixture.fields Fixture.w0)
  = Ok [("title", [Some "t1"; Some "t2"; Some "t3"]);
        ("link", [Some "/d1"; Some "http://y/d2"; Some "/d3"]);
        ("image", [Some "1.png"; Some "2.png"; None])].
Proof.
  intros B N.
  destruct (scrape_listing_data_columns B N Fixture.scraper Fixture.fields
              Fixture.w0 eq_refl) as (w' & Hrun & _); [discriminate|].
  now rewrite Hrun.
Defined.

(** X2: the record set of a scrape over at least one field has columns of
    one length, the sum over the fetched pages of their least sequence
    length, so [create_dataframe] accepts it: the frame has that many
    rows, one cell per row in every column, and its columns are the fields
    in the order of the selector map. *)
Theorem scraped_frame_is_aligned (B : Bs4) (N : Requests)
    (self : GenericScraper) (field_selectors : dict string) (w : World) :
  distinct (keys field_selectors) = true ->
  field_selectors <> [] ->
  let df := listing_frame self field_selectors (sent w) in
  (exists w',
     (data <- scrape_listing_data self field_selectors ;; create_dataframe data) w
     = (Ok df, w'))
  /\ well_formed df = true
  /\ keys (columns df) = keys field_selectors
  /\ (forall kv, In kv field_selectors ->
        dict_get (columns df) (fst kv)
        = Some (listing_column self field_selectors (sent w) (pages self) (snd kv))
        /\ length (listing_column self field_selectors (sent w) (pages self)
                     (snd kv))
           = nrows df).
Proof.
  intros Hd Hne df.
  destruct (scrape_listing_data_columns B N self field_selectors w Hd Hne)
    as (w' & Hrun & _).
  apply distinct_NoDup in Hd.
  assert (Hlen : forall kv, In kv field_selectors ->
            length (listing_column self field_selectors (sent w) (pages self)
                      (snd kv))
            = listing_rows self field_selectors (sent w) (pages self)).
  { intros kv Hkv. now apply length_listing_column. }
  assert (Hwf : well_formed df = true).
  { unfold well_formed, df, listing_frame, listing_data. cbn [columns nrows].
    rewrite forallb_map. apply forallb_forall. intros kv Hkv. cbn [snd].
    apply Nat.eqb_eq. now apply Hlen. }
  split; [|split; [exact Hwf | split]].
  - exists w'. unfold bind. rewrite Hrun.
    unfold create_dataframe, df, listing_frame, listing_data.
    destruct field_selectors as [|kv0 rest]; [congruence|].
    cbn [map fst snd].
    assert (Hrest : forallb
                      (fun c : string * list PyStr =>
                         Nat.eqb (length (snd c))
                           (length (listing_column self (kv0 :: rest) (sent w)
                                      (pages self) (snd kv0))))
                      (map (fun kv =>
                              (fst kv,
                               listing_column self (kv0 :: rest) (sent w)
                                 (pages self) (snd kv))) rest) = true).
    { rewrite forallb_map. apply forallb_forall. intros kv Hkv. cbn [snd].
      apply Nat.eqb_eq. rewrite !Hlen; [reflexivity | now left | now right]. }
    rewrite Hrest. unfold ret.
    now rewrite (Hlen kv0 (or_introl eq_refl)).
  - unfold df, listing_frame, listing_data. cbn [columns].
    apply keys_map_values.
  - intros kv Hkv. split; [|now apply Hlen].
    unfold df, listing_frame, listing_data. cbn [columns].
    now apply (dict_get_map_values
                 (fun kv => listing_column self field_selectors (sent w)
                              (pages self) (snd kv))).
Qed.

Lemma scraped_frame_is_aligned_witness :
  let B := Fixture.bs4 Fixture.parse in
  let N := Fixture.net Fixture.table in
  nrows (listing_frame Fixture.scraper Fixture.fields 0) = 3
  /\ well_formed (listing_frame Fixture.scraper Fixture.fields 0) = true.
Proof.
  intros B N.
  destruct (scraped_frame_is_aligned B N Fixture.scraper Fixture.fields
              Fixture.w0 eq_refl) as (_ & Hwf & _); [discriminate|].
  split; [reflexivity | exact Hwf].
Defined.

(** X3: when every request of the run fails, the scrape raises nothing
    and returns the empty record set (every field with no value), having
    requested every page in order, without a single pause. *)
Theorem scrape_with_dead_network (B : Bs4) (N : Requests)
    (self : GenericScraper) (field_selectors : dict string) (w : World) :
  (forall n url, page_of_response (requests_get n url) = None) ->
  exists w',
    scrape_listing_data self field_selectors w
    = (Ok (empty_field_data field_selectors), w')
    /\ requested (trace w') = (requested (trace w) ++ page_urls self)%list
    /\ slept (trace w') = slept (trace w).
Proof.
  intros Hdown. unfold scrape_listing_data, page_urls.
  now apply listing_loop_offline.
Qed.

Lemma scrape_with_dead_network_witness :
  let B := Fixture.bs4 Fixture.parse in
  let N := Fixture.net [] in
  exists w',
    scrape_listing_data
      (GenericScraper_init "http://x/list" 1 3 default_page_param "" true)
      Fixture.fields Fixture.w0
    = (Ok [("title", []); ("link", []); ("image", [])], w')
    /\ requested (trace w')
       = ["http://x/list?page=1"; "http://x/list?page=2"; "http://x/list?page=3"]
    /\ slept (trace w') = [].
Proof.
  intros B N.
  destruct (scrape_with_dead_network B N
              (GenericScraper_init "http://x/list" 1 3 default_page_param "" true)
              Fixture.fields Fixture.w0) as (w' & Hrun & Hreq & Hsl).
  - intros n url. reflexivity.
  - exists w'. repeat split; assumption.
Defined.

(** X4: over at least one field, the scrape pauses one second after every
    page that was fetched and not after a page whose fetch failed: the
    pauses of the run are one per fetched page. *)
Theorem scrape_pauses_per_fetched_page (B : Bs4) (N : Requests)
    (self : GenericScraper) (field_selectors : dict string) (w : World) :
  distinct (keys field_selectors) = true ->
  field_selectors <> [] ->
  slept (trace (snd (scrape_listing_data self field_selectors w)))
  = (slept (trace w) ++ listing_pauses self (sent w) (pages self))%list.
Proof.
  intros Hd Hne. apply distinct_NoDup in Hd.
  destruct (listing_loop_columns self field_selectors Hd Hne (pages self)
              (fun _ => []) w) as (w' & Hrun & _ & Hslept & _).
  unfold scrape_listing_data. rewrite empty_field_data_map by exact Hd.
  unfold keys. rewrite map_map. cbn [fst]. now rewrite Hrun.
Qed.

Lemma scrape_pauses_per_fetched_page_witness :
  let B := Fixture.bs4 Fixture.parse in
  let N := Fixture.net [("http://x/list?page=2", Response 200 "OK" "LISTING")] in
  slept (trace (snd (scrape_listing_data
                       (GenericScraper_init "http://x/list" 1 3
                          default_page_param "" true)
                       Fixture.fields Fixture.w0)))
  = [1%Z].
Proof.
  intros B N.
  exact (scrape_pauses_per_fetched_page B N
           (GenericScraper_init "http://x/list" 1 3 default_page_param "" true)
           Fixture.fields Fixture.w0 eq_refl
           (fun H => @nil_cons _ _ _ (eq_sym H))).
Defined.

(** X5: on a fetched page whose sequences all have the same length, every
    field gains its whole sequence and no warning is printed: the page
    leaves nothing in the trace but its request. *)
Theorem aligned_page_is_appended_whole (B : Bs4) (N : Requests)
    (self : GenericScraper) (field_selectors : dict string)
    (field_data : dict (list PyStr)) (page_num : option Z) (soup : Soup)
    (w : World) :
  distinct (keys field_selectors) = true ->
  field_selectors <> [] ->
  keys field_data = keys field_selectors ->
  page_of_response (requests_get (sent w) (page_url self page_num)) = Some soup ->
  aligned (extract_fields soup field_selectors) ->
  let raw_data := extract_fields soup field_selectors in
  let out := scrape_page self field_selectors field_data page_num w in
  exists fd',
    out = (Ok fd', after_request self (page_url self page_num) w)
    /\ keys fd' = keys field_data
    /\ (forall key old lst,
          dict_get field_data key = Some old ->
          dict_get raw_data key = Some lst ->
          dict_get fd' key = Some (old ++ lst)%list).
Proof.
  intros Hd Hne Hkeys Hpage Hal raw_data out.
  apply distinct_NoDup in Hd.
  destruct (merge_page_run page_num raw_data field_data
              (after_request self (page_url self page_num) w))
    as (m & fd' & Hle & (lst0 & Hin0 & Hlen0) & Hrun & Hk & Hgain).
  { now rewrite Hkeys. }
  { unfold raw_data. rewrite keys_extract_fields by exact Hd. now symmetry. }
  { unfold raw_data. rewrite extract_fields_map by exact Hd.
    destruct field_selectors; [congruence | discriminate]. }
  assert (Hall : forall lst, In lst (values raw_data) -> length lst = m).
  { intros lst Hlst. rewrite <- Hlen0. now apply Hal. }
  assert (Hquiet : existsb (fun lst => negb (Nat.eqb (length lst) m))
                     (values raw_data) = false).
  { destruct (existsb _ (values raw_data)) eqn:E; [|reflexivity].
    apply existsb_exists in E as (lst & Hlst & Hneq).
    apply negb_true_iff, Nat.eqb_neq in Hneq. elim Hneq. now apply Hall. }
  rewrite Hquiet in Hrun.
  exists fd'. split; [|split; [exact Hk|]].
  - unfold out, scrape_page, bind. rewrite request_page_run, Hpage.
    fold raw_data. rewrite Hrun. f_equal.
    unfold after_request. cbn [trace sent dirs files]. now rewrite app_nil_r.
  - intros key old lst Hold Hlst.
    destruct (Hgain key old lst Hold Hlst) as [Hget _]. rewrite Hget.
    rewrite firstn_all2; [reflexivity|].
    rewrite (Hall lst); [lia|].
    apply dict_get_some_in in Hlst. apply (in_map snd) in Hlst. exact Hlst.
Qed.

Lemma aligned_page_is_appended_whole_witness :
  let B := Fixture.bs4 Fixture.parse in
  let N := Fixture.net Fixture.table in
  exists fd',
    scrape_page Fixture.scraper [("title", "h2.title"); ("link", "a.item[href]")]
      [("title", [Some "t0"]); ("link", [Some "/d0"])] None Fixture.w0
    = (Ok fd', after_request Fixture.scraper "http://x/list" Fixture.w0)
    /\ dict_get fd' "title"
       = Some [Some "t0"; Some "t1"; Some "t2"; Some "t3"; Some "t4"; Some "t5"].
Proof.
  intros B N.
  destruct (aligned_page_is_appended_whole B N Fixture.scraper
              [("title", "h2.title"); ("link", "a.item[href]")]
              [("title", [Some "t0"]); ("link", [Some "/d0"])] None
              Fixture.listing Fixture.w0)
    as (fd' & Hrun & _ & Hgain).
  - reflexivity.
  - discriminate.
  - reflexivity.
  - reflexivity.
  - intros l1 l2 H1 H2. simpl in H1, H2.
    destruct H1 as [<- | [<- | []]], H2 as [<- | [<- | []]]; reflexivity.
  - exists fd'. split; [exact Hrun|].
    exact (Hgain "title" [Some "t0"] _ eq_refl eq_refl).
Defined.

(** ** Enrichment: edge cases *)

(** A key that is not among the keys has no value. *)
Lemma dict_get_absent {V} (d : dict V) (k : string) :
  existsb (String.eqb k) (keys d) = false -> dict_get d k = None.
Proof.
  intros Hno. destruct (dict_get d k) eqn:E; [|reflexivity].
  assert (Hin : In k (keys d)) by (apply dict_get_in_keys; congruence).
  assert (existsb (String.eqb k) (keys d) = true); [|congruence].
  apply existsb_exists. exists k. split; [exact Hin | apply String.eqb_refl].
Qed.

(** [df[link_column]] on a frame without that column. *)
Lemma enrich_without_link_column_run `{B : Bs4} `{N : Requests}
    (self : GenericScraper) (df : DataFrame) (column_name : string)
    (selectors : list string) (attr : PyStr) (link_column : string) (w : World) :
  existsb (String.eqb link_column) (keys (columns df)) = false ->
  enrich_dataframe_column_from_pages self df column_name selectors attr
    link_column w
  = (Raise (KeyError link_column), w).
Proof.
  intros Hno. unfold enrich_dataframe_column_from_pages, df_getitem, bind.
  now rewrite (dict_get_absent _ _ Hno).
Qed.

(** X6: when the frame has no column of the given link name, enrichment
    raises [KeyError] on that name at once: no request is sent, nothing is
    printed and the frame is not returned. *)
Theorem enrich_without_link_column (B : Bs4) (N : Requests)
    (self : GenericScraper) (df : DataFrame) (column_name : string)
    (selectors : list string) (attr : PyStr) (link_column : string) (w : World) :
  existsb (String.eqb link_column) (keys (columns df)) = false ->
  enrich_dataframe_column_from_pages self df column_name selectors attr
    link_column w
  = (Raise (KeyError link_column), w).
Proof.
  intros Hno.
  assert (Hget : dict_get (columns df) link_column = None)
    by now apply dict_get_absent.
  unfold enrich_dataframe_column_from_pages, df_getitem, bind.
  rewrite Hget. reflexivity.
Qed.

Lemma enrich_without_link_column_witness :
  let B := Fixture.bs4 Fixture.parse in
  let N := Fixture.net Fixture.table in
  enrich_dataframe_column_from_pages Fixture.scraper Fixture.frame "content"
    Fixture.selectors None "url" Fixture.w0
  = (Raise (KeyError "url"), Fixture.w0).
Proof.
  intros B N.
  exact (enrich_without_link_column B N Fixture.scraper Fixture.frame "content"
           Fixture.selectors None "url" Fixture.w0 eq_refl).
Defined.

Section AttrEdge.

Context `{B : Bs4}.

Lemma first_selector_match_empty_attr (soup : Soup) (selectors : list string) :
  first_selector_match soup selectors (Some "")
  = first_selector_match soup selectors None.
Proof.
  induction selectors as [|s selectors IH]; cbn [first_selector_match];
    [reflexivity|].
  destruct (select_one soup s); [reflexivity | exact IH].
Qed.

End AttrEdge.

(** X7: the first selector that matches decides the value even when its
    tag lacks the requested attribute: the result is null and the later
    selectors are not tried.  An empty attribute name asks for the text,
    like no attribute name. *)
Theorem attribute_of_first_match_only (B : Bs4) (soup : Soup)
    (selectors : list string) :
  (forall pre sel post tag more a s,
      selectors = (pre ++ sel :: post)%list ->
      (forall x, In x pre -> select soup x = []) ->
      select soup sel = tag :: more ->
      tag_get tag (String a s) = None ->
      first_selector_match soup selectors (Some (String a s)) = None)
  /\ first_selector_match soup selectors (Some "")
     = first_selector_match soup selectors None.
Proof.
  split; [|apply first_selector_match_empty_attr].
  intros pre sel post tag more a s -> Hpre Hsel Hnone.
  rewrite (first_selector_match_first soup (Some (String a s)) sel post tag more
             pre Hpre Hsel).
  exact Hnone.
Qed.

Lemma attribute_of_first_match_only_witness :
  let B := Fixture.bs4 Fixture.parse in
  first_selector_match (Fixture.detail "body")
    ["h1.missing"; "article p"; "div.body"] (Some "href") = None.
Proof.
  intros B.
  destruct (attribute_of_first_match_only B (Fixture.detail "body")
              ["h1.missing"; "article p"; "div.body"]) as [H _].
  apply (H ["h1.missing"] "article p" ["div.body"] (Fixture.h2 "body")
           [Fixture.h2 "second paragraph"] "h"%char "ref" eq_refl).
  - intros x [<- | []]. reflexivity.
  - reflexivity.
  - reflexivity.
Defined.

(** ** Saving: what else happens *)

Lemma dict_set_set {V} (d : dict V) k v1 v2 :
  dict_set (dict_set d k v1) k v2 = dict_set d k v2.
Proof.
  induction d as [|[k' v'] d IH]; simpl.
  - now rewrite String.eqb_refl.
  - destruct (String.eqb k' k) eqn:E; simpl.
    + now rewrite String.eqb_refl.
    + now rewrite E, IH.
Qed.

Lemma output_path_same_minute (saver : SaveStrategy) (name : string)
    (a b : DateTime) :
  same_minute a b -> output_path saver name a = output_path saver name b.
Proof.
  intros (Hy & Hmo & Hd & Hh & Hmi).
  unfold output_path, strftime_Ymd_HM. now rewrite Hy, Hmo, Hd, Hh, Hmi.
Qed.

Lemma save_to_refused (path msg : string) (e : Exn) (w : World) :
  save_to path (Raise e) msg w = (Raise e, with_dirs w (dirname path)).
Proof. reflexivity. Qed.

Section SaveRuns.

Context `{P : Platform}.

(** A save whose frame is accepted. *)
Lemma save_run (saver : SaveStrategy) (df : DataFrame) (name content : string)
    (w : World) :
  serialiser saver df = Ok content ->
  save saver df name w
  = (Ok tt,
     mkWorld
       (trace w
          ++ [Print (saved_message saver
                       (output_path saver name (datetime_now (trace w))))])
       (sent w)
       (fold_left add_dir
          (dir_chain "" (dirname (output_path saver name (datetime_now (trace w)))))
          (dirs w))
       (dict_set (files w) (output_path saver name (datetime_now (trace w)))
          content)).
Proof.
  intros Hser. rewrite save_is_save_to, Hser. apply save_to_run.
Qed.

(** A save whose frame is refused. *)
Lemma save_run_refused (saver : SaveStrategy) (df : DataFrame) (name : string)
    (e : Exn) (w : World) :
  serialiser saver df = Raise e ->
  save saver df name w
  = (Raise e,
     with_dirs w (dirname (output_path saver name (datetime_now (trace w))))).
Proof.
  intros Hser. rewrite save_is_save_to, Hser. apply save_to_refused.
Qed.

(** Saving sends no request and does not pause, whatever its outcome. *)
Lemma save_offline (saver : SaveStrategy) (df : DataFrame) (name : string) :
  offline (save saver df name).
Proof.
  intros w. destruct (serialiser saver df) as [content | e] eqn:Hser.
  - rewrite (save_run saver df name content w Hser). cbn [snd trace sent].
    rewrite requested_app, slept_app. cbn [requested slept].
    now rewrite !app_nil_r.
  - rewrite (save_run_refused saver df name e w Hser). cbn. auto.
Qed.

End SaveRuns.

(** X8: two saves of the same name by the same strategy within one minute
    go to the same path, and the second replaces the first: one file is
    left at that path, holding the second record set. *)
Theorem same_minute_save_overwrites (P : Platform) (saver : SaveStrategy)
    (df1 df2 : DataFrame) (name c1 c2 : string) (w : World) :
  serialiser saver df1 = Ok c1 ->
  serialiser saver df2 = Ok c2 ->
  let w1 := snd (save saver df1 name w) in
  same_minute (datetime_now (trace w1)) (datetime_now (trace w)) ->
  let path := output_path saver name (datetime_now (trace w)) in
  fst (save saver df2 name w1) = Ok tt
  /\ files (snd (save saver df2 name w1)) = dict_set (files w) path c2
  /\ dict_get (files (snd (save saver df2 name w1))) path = Some c2.
Proof.
  intros H1 H2 w1 Hmin path.
  assert (Hpath : output_path saver name (datetime_now (trace w1)) = path)
    by now apply output_path_same_minute.
  rewrite (save_run saver df2 name c2 w1 H2). cbn [fst snd files].
  rewrite Hpath. unfold w1. rewrite (save_run saver df1 name c1 w H1).
  cbn [snd files]. fold path. rewrite dict_set_set.
  split; [reflexivity|]. split; [reflexivity | apply dict_get_set_same].
Qed.

Lemma same_minute_save_overwrites_witness :
  let P := Fixture.platform Fixture.now in
  files (snd (save CsvStrategy Fixture.frame_none "run"
                (snd (save CsvStrategy Fixture.frame "run" Fixture.w0))))
  = [("outputs/csv/run_20261103_1005.csv", "csv")].
Proof.
  intros P.
  destruct (same_minute_save_overwrites P CsvStrategy Fixture.frame
              Fixture.frame_none "run" "csv" "csv" Fixture.w0 eq_refl eq_refl)
    as (_ & Hfiles & _).
  - repeat split.
  - exact Hfiles.
Defined.

(** X9: the paths of two different strategies differ, whatever the names
    and the times: files of different formats never replace each
    other. *)
Theorem formats_never_collide (saver1 saver2 : SaveStrategy)
    (name1 name2 : string) (now1 now2 : DateTime) :
  saver1 <> saver2 ->
  output_path saver1 name1 now1 <> output_path saver2 name2 now2.
Proof.
  intros Hne Heq. apply Hne.
  unfold output_path in Heq.
  destruct saver1, saver2; try reflexivity; cbn in Heq; discriminate.
Qed.

Lemma formats_never_collide_witness :
  output_path CsvStrategy "run" Fixture.now
  <> output_path JsonStrategy "run" Fixture.now.
Proof.
  apply formats_never_collide. discriminate.
Defined.

(** X10: when the serialiser refuses the frame, the save raises its
    error and prints no report, but the directory of the path has been
    created already: [makedirs] runs before the frame is serialised. *)
Theorem refused_frame_leaves_directory (P : Platform) (saver : SaveStrategy)
    (df : DataFrame) (name : string) (e : Exn) (w : World) :
  serialiser saver df = Raise e ->
  let path := output_path saver name (datetime_now (trace w)) in
  let out := save saver df name w in
  fst out = Raise e
  /\ trace (snd out) = trace w
  /\ dir_exists (dirs (snd out)) (dirname path) = true.
Proof.
  intros Hser path out. unfold out.
  rewrite (save_run_refused saver df name e w Hser). fold path.
  cbn [fst snd with_dirs trace dirs].
  repeat split.
  apply makedirs_creates, (dir_chain_self (dirname path) "").
Qed.

Lemma refused_frame_leaves_directory_witness :
  let P := no_xml_platform Fixture.now in
  fst (save XmlStrategy Fixture.frame "run" Fixture.w0)
  = Raise (ValueError "Invalid tag name")
  /\ dir_exists (dirs (snd (save XmlStrategy Fixture.frame "run" Fixture.w0)))
       "outputs/xml" = true.
Proof.
  intros P.
  destruct (refused_frame_leaves_directory P XmlStrategy Fixture.frame "run"
              (ValueError "Invalid tag name") Fixture.w0 eq_refl)
    as (Hres & _ & Hdir).
  split; assumption.
Defined.

(** X11: a save that succeeds changes one file only: every other path
    keeps its content; it sends no request, does not pause, and prints
    one line, the report of the path. *)
Theorem save_touches_one_file (P : Platform) (saver : SaveStrategy)
    (df : DataFrame) (name content : string) (w : World) :
  serialiser saver df = Ok content ->
  let path := output_path saver name (datetime_now (trace w)) in
  let w' := snd (save saver df name w) in
  (forall p, p <> path -> dict_get (files w') p = dict_get (files w) p)
  /\ trace w' = (trace w ++ [Print (saved_message saver path)])%list
  /\ requested (trace w') = requested (trace w)
  /\ slept (trace w') = slept (trace w)
  /\ sent w' = sent w.
Proof.
  intros Hser path w'.
  destruct (save_offline saver df name w) as (Hreq & Hsl & Hsent).
  fold w' in Hreq, Hsl, Hsent.
  split; [|split; [|repeat split; assumption]].
  - intros p Hp. unfold w'. rewrite (save_run saver df name content w Hser).
    cbn [snd files]. fold path. apply dict_get_set_other. congruence.
  - unfold w'. now rewrite (save_run saver df name content w Hser).
Qed.

Lemma save_touches_one_file_witness :
  let P := Fixture.platform Fixture.now in
  let w := mkWorld [] 0 [] [("notes.txt", "keep")] in
  dict_get (files (snd (save JsonStrategy Fixture.frame "run" w))) "notes.txt"
  = Some "keep"
  /\ requested (trace (snd (save JsonStrategy Fixture.frame "run" w))) = [].
Proof.
  intros P w.
  destruct (save_touches_one_file P JsonStrategy Fixture.frame "run" "json" w
              eq_refl) as (Hother & _ & Hreq & _).
  split; [|exact Hreq].
  apply (Hother "notes.txt"). discriminate.
Defined.

(** ** [create_saver] *)

Lemma get_saver_named (strategy : string) (w : World) :
  get_saver strategy w
  = match strategy_named strategy with
    | Some saver => (Ok saver, w)
    | None => (Raise (ValueError ("Unsupported save strategy: " ++ strategy)), w)
    end.
Proof.
  unfold get_saver, strategy_named.
  destruct (String.eqb strategy "csv"); [reflexivity|].
  destruct (String.eqb strategy "json"); [reflexivity|].
  now destruct (String.eqb strategy "xml").
Qed.

Lemma create_saver_run (format : string) (w : World) :
  create_saver format w
  = (match strategy_named format with
     | Some saver => Ok (FileStrategy saver)
     | None =>
         if String.eqb format "sqlite" then Ok (SqliteStrategy default_db_path)
         else Raise (ValueError ("Unknown save format: " ++ format))
     end,
     with_dirs w "outputs/db").
Proof.
  unfold create_saver, SqliteStrategy_init, bind, makedirs, ret, strategy_named.
  cbn [dict_get].
  rewrite (String.eqb_sym "csv"), (String.eqb_sym "json"),
    (String.eqb_sym "sqlite"), (String.eqb_sym "xml").
  destruct (String.eqb format "csv") eqn:Ecsv; [reflexivity|].
  destruct (String.eqb format "json") eqn:Ejson; [reflexivity|].
  destruct (String.eqb format "sqlite") eqn:Esql.
  - apply String.eqb_eq in Esql. subst format. reflexivity.
  - now destruct (String.eqb format "xml").
Qed.

(** X12: [create_saver] and [get_saver] choose the same strategy for
    "csv", "json" and "xml"; "sqlite" is accepted by [create_saver] only;
    every other name is refused by both with a [ValueError], each with its
    own message. *)
Theorem create_saver_agrees_with_get_saver (format : string) (w : World) :
  match strategy_named format with
  | Some saver =>
      fst (get_saver format w) = Ok saver
      /\ fst (create_saver format w) = Ok (FileStrategy saver)
  | None =>
      fst (get_saver format w)
      = Raise (ValueError ("Unsupported save strategy: " ++ format))
      /\ fst (create_saver format w)
         = if String.eqb format "sqlite"
           then Ok (SqliteStrategy default_db_path)
           else Raise (ValueError ("Unknown save format: " ++ format))
  end.
Proof.
  rewrite get_saver_named, create_saver_run.
  now destruct (strategy_named format).
Qed.

(** X13: whatever the format, and also when the format is refused,
    [create_saver] has created the directory of the SQLite database,
    "outputs/db", with its parent; it writes no file, prints nothing and
    keeps the directories that existed. *)
Theorem create_saver_creates_db_directory (format : string) (w : World) :
  let w' := snd (create_saver format w) in
  dir_exists (dirs w') "outputs" = true
  /\ dir_exists (dirs w') "outputs/db" = true
  /\ (forall d, dir_exists (dirs w) d = true -> dir_exists (dirs w') d = true)
  /\ files w' = files w
  /\ trace w' = trace w.
Proof.
  intros w'. unfold w'. rewrite create_saver_run.
  cbn [snd with_dirs dirs files trace].
  split; [apply makedirs_creates; cbn; auto|].
  split; [apply makedirs_creates; cbn; auto|].
  split; [intros d; apply makedirs_keeps | split; reflexivity].
Qed.

(** ** Whole runs *)

Lemma bind_print {A} (msg : string) (k : unit -> M A) (w : World) :
  bind (print msg) k w
  = k tt (mkWorld (trace w ++ [Print msg]) (sent w) (dirs w) (files w)).
Proof. reflexivity. Qed.

Lemma bind_ok {A C} (m : M A) (k : A -> M C) (w : World) (a : A) (w1 : World) :
  m w = (Ok a, w1) -> bind m k w = k a w1.
Proof. intros H. unfold bind. now rewrite H. Qed.

Lemma bind_raise {A C} (m : M A) (k : A -> M C) (w : World) (e : Exn)
    (w1 : World) :
  m w = (Raise e, w1) -> bind m k w = (Raise e, w1).
Proof. intros H. unfold bind. now rewrite H. Qed.

Lemma offline_ret {A} (a : A) : offline (ret a).
Proof. intros w. cbn. auto. Qed.

Lemma offline_raise {A} (e : Exn) : offline (@raise A e).
Proof. intros w. cbn. auto. Qed.

Lemma offline_print (msg : string) : offline (print msg).
Proof.
  intros w. cbn. rewrite requested_app, slept_app. cbn.
  now rewrite !app_nil_r.
Qed.

Lemma offline_bind {A C} (m : M A) (k : A -> M C) :
  offline m -> (forall a, offline (k a)) -> offline (bind m k).
Proof.
  intros Hm Hk w. unfold bind. destruct (Hm w) as (Hr & Hs & Hn).
  destruct (m w) as [[a | e] w1]; cbn [snd] in *.
  - destruct (Hk a w1) as (Hr' & Hs' & Hn'). repeat split; congruence.
  - auto.
Qed.

Lemma offline_create_dataframe (data_dict : dict (list PyStr)) :
  offline (create_dataframe data_dict).
Proof.
  unfold create_dataframe. destruct data_dict as [|[k v] rest];
    [apply offline_ret|].
  destruct (forallb _ rest); [apply offline_ret | apply offline_raise].
Qed.

Lemma offline_get_saver (strategy : string) : offline (get_saver strategy).
Proof.
  intros w. rewrite get_saver_named.
  destruct (strategy_named strategy); cbn; auto.
Qed.

(** What follows a computation and stays offline adds no request. *)
Lemma bind_then_offline {A C} (m : M A) (k : A -> M C) (w : World) :
  (forall a, offline (k a)) ->
  requested (trace (snd (bind m k w))) = requested (trace (snd (m w))).
Proof.
  intros Hk. unfold bind. destruct (m w) as [[a | e] w1]; cbn [snd];
    [|reflexivity].
  apply (Hk a w1).
Qed.

Section Runs.

Context `{B : Bs4} `{N : Requests}.

Lemma create_dataframe_listing self (field_selectors : dict string) (n : nat)
    (w : World) :
  NoDup (keys field_selectors) ->
  field_selectors <> [] ->
  create_dataframe (listing_data self field_selectors n (pages self)) w
  = (Ok (listing_frame self field_selectors n), w).
Proof.
  intros Hnd Hne.
  assert (Hlen : forall kv, In kv field_selectors ->
            length (listing_column self field_selectors n (pages self) (snd kv))
            = listing_rows self field_selectors n (pages self)).
  { intros kv Hkv. now apply length_listing_column. }
  unfold create_dataframe, listing_frame, listing_data.
  destruct field_selectors as [|kv0 rest]; [congruence|].
  cbn [map fst snd].
  match goal with
  | |- context [forallb ?p ?l] => assert (Hrest : forallb p l = true)
  end.
  { rewrite forallb_map. apply forallb_forall. intros kv Hkv. cbn [snd].
    apply Nat.eqb_eq. rewrite !Hlen; [reflexivity | now left | now right]. }
  rewrite Hrest. unfold ret.
  now rewrite (Hlen kv0 (or_introl eq_refl)).
Qed.

(** The scrape over at least one field, with everything it leaves
    behind. *)
Lemma scrape_frame_run self (field_selectors : dict string) (w : World) :
  NoDup (keys field_selectors) ->
  field_selectors <> [] ->
  exists w1,
    scrape_listing_data self field_selectors w
    = (Ok (listing_data self field_selectors (sent w) (pages self)), w1)
    /\ requested (trace w1) = (requested (trace w) ++ page_urls self)%list
    /\ dirs w1 = dirs w /\ files w1 = files w
    /\ sent w1 = sent w + length (pages self).
Proof.
  intros Hnd Hne.
  destruct (listing_loop_columns self field_selectors Hnd Hne (pages self)
              (fun _ => []) w) as (w1 & Hrun & Hsent & _ & Hd & Hf).
  destruct (scrape_listing_data_ok self field_selectors w Hnd Hne)
    as (data & w1' & Hrun' & _ & Hreq).
  assert (Hscrape : scrape_listing_data self field_selectors w
                    = (Ok (listing_data self field_selectors (sent w) (pages self)),
                       w1)).
  { unfold scrape_listing_data. rewrite empty_field_data_map by exact Hnd.
    unfold keys. rewrite map_map. exact Hrun. }
  exists w1. split; [exact Hscrape|].
  rewrite Hscrape in Hrun'. injection Hrun' as _ <-. auto.
Qed.

End Runs.

(** X14: with at least one field, a supported strategy, enrichment off
    and a frame the serialiser accepts, [main] succeeds: it requests the
    pages of the Pager and nothing else, and writes one file, the
    serialised frame of the scrape, at the path of the strategy for the
    configured name and the time read when the save starts; its last line
    of output reports that path. *)
Theorem main_saves_scraped_frame (B : Bs4) (N : Requests) (P : Platform)
    (config : Config) (saver : SaveStrategy) (content : string) (w : World) :
  let scraper :=
    GenericScraper_init (cfg_base_url config) (cfg_start_page config)
      (cfg_end_page config) default_page_param (cfg_link_base config)
      (get_default (cfg_pagination config) false) in
  distinct (keys (cfg_field_selectors config)) = true ->
  cfg_field_selectors config <> [] ->
  get_default (cfg_enrich config) false = false ->
  strategy_named (cfg_save_strategy config) = Some saver ->
  serialiser saver (listing_frame scraper (cfg_field_selectors config) (sent w))
  = Ok content ->
  exists t w',
    main config w = (Ok tt, w')
    /\ files w'
       = dict_set (files w)
           (output_path saver (cfg_output_name config) (datetime_now t)) content
    /\ trace w'
       = (t ++ [Print (saved_message saver
                         (output_path saver (cfg_output_name config)
                            (datetime_now t)))])%list
    /\ requested (trace w') = (requested (trace w) ++ page_urls scraper)%list.
Proof.
  intros scraper Hd Hne Henrich Hname Hser. apply distinct_NoDup in Hd.
  set (w0 := mkWorld (trace w ++ [Print "📰 Scraping listing page..."])
                     (sent w) (dirs w) (files w)).
  destruct (scrape_frame_run scraper (cfg_field_selectors config) w0 Hd Hne)
    as (w1 & Hscrape & Hreq & Hdirs & Hfiles & Hsent).
  pose proof (create_dataframe_listing scraper (cfg_field_selectors config)
                (sent w0) w1 Hd Hne) as Hframe.
  set (df := listing_frame scraper (cfg_field_selectors config) (sent w)) in *.
  set (w2 := mkWorld
               (trace w1 ++ [Print ("✅ Extracted "
                                      ++ Py.str_of_int (Z.of_nat (nrows df))
                                      ++ " records")])
               (sent w1) (dirs w1) (files w1)).
  exists (trace w2). eexists.
  split; [|split; [|split]].
  - unfold main. cbv zeta. fold scraper.
    rewrite bind_print. fold w0.
    rewrite (bind_ok _ _ _ _ _ Hscrape).
    rewrite (bind_ok _ _ _ _ _ Hframe).
    rewrite Henrich.
    rewrite (bind_ok (ret _) _ _ _ _ eq_refl).
    rewrite bind_print. fold df. fold w2.
    rewrite (bind_ok (get_saver _) _ w2 saver w2)
      by (rewrite get_saver_named, Hname; reflexivity).
    apply (save_run saver df (cfg_output_name config) content w2 Hser).
  - cbn [files w2]. now rewrite Hfiles.
  - reflexivity.
  - cbn [trace w2]. rewrite !requested_app, Hreq. cbn [requested trace w0].
    rewrite requested_app. cbn [requested]. now rewrite !app_nil_r.
Qed.

Lemma main_saves_scraped_frame_witness :
  let B := Fixture.bs4 Fixture.parse in
  let N := Fixture.net Fixture.table in
  let P := Fixture.platform Fixture.now in
  exists w',
    main (Fixture.config "csv") Fixture.w0 = (Ok tt, w')
    /\ files w' = [("outputs/csv/run_20261103_1005.csv", "csv")]
    /\ requested (trace w') = ["http://x/list"].
Proof.
  intros B N P.
  destruct (main_saves_scraped_frame B N P (Fixture.config "csv") CsvStrategy
              "csv" Fixture.w0 eq_refl)
    as (t & w' & Hrun & Hfiles & _ & Hreq).
  - discriminate.
  - reflexivity.
  - reflexivity.
  - reflexivity.
  - exists w'. split; [exact Hrun|]. split; [exact Hfiles | exact Hreq].
Defined.

(** X15: with enrichment on, a configuration without [enrich_selectors],
    or whose field selectors name no field "link", stops [main] with a
    [KeyError] on that key, but only after the whole scrape: every page
    has been requested, no detail page has, and nothing is saved. *)
Theorem main_enrichment_misconfigured (B : Bs4) (N : Requests) (P : Platform)
    (config : Config) (w : World) :
  let scraper :=
    GenericScraper_init (cfg_base_url config) (cfg_start_page config)
      (cfg_end_page config) default_page_param (cfg_link_base config)
      (get_default (cfg_pagination config) false) in
  distinct (keys (cfg_field_selectors config)) = true ->
  cfg_field_selectors config <> [] ->
  get_default (cfg_enrich config) false = true ->
  cfg_enrich_selectors config = None
  \/ existsb (String.eqb "link") (keys (cfg_field_selectors config)) = false ->
  exists w',
    main config w
    = (Raise (KeyError (match cfg_enrich_selectors config with
                        | None => "enrich_selectors"
                        | Some _ => "link"
                        end)), w')
    /\ requested (trace w') = (requested (trace w) ++ page_urls scraper)%list
    /\ dirs w' = dirs w /\ files w' = files w.
Proof.
  intros scraper Hd Hne Henrich Hmis. apply distinct_NoDup in Hd.
  set (w0 := mkWorld (trace w ++ [Print "📰 Scraping listing page..."])
                     (sent w) (dirs w) (files w)).
  destruct (scrape_frame_run scraper (cfg_field_selectors config) w0 Hd Hne)
    as (w1 & Hscrape & Hreq & Hdirs & Hfiles & Hsent).
  pose proof (create_dataframe_listing scraper (cfg_field_selectors config)
                (sent w0) w1 Hd Hne) as Hframe.
  eexists. split.
  - unfold main. cbv zeta. fold scraper.
    rewrite bind_print. fold w0.
    rewrite (bind_ok _ _ _ _ _ Hscrape).
    rewrite (bind_ok _ _ _ _ _ Hframe).
    rewrite Henrich.
    apply bind_raise. rewrite bind_print.
    destruct (cfg_enrich_selectors config) as [selectors|].
    + destruct Hmis as [Hnone | Hlink]; [discriminate|].
      rewrite (bind_ok (ret _) _ _ _ _ eq_refl).
      apply enrich_without_link_column_run.
      unfold listing_frame, listing_data. cbn [columns].
      rewrite keys_map_values. exact Hlink.
    + apply bind_raise. reflexivity.
  - cbn [trace dirs files]. rewrite requested_app, Hreq, Hdirs, Hfiles.
    cbn [requested trace w0 dirs files]. rewrite requested_app.
    cbn [requested]. now rewrite !app_nil_r.
Qed.

Lemma main_enrichment_misconfigured_witness :
  let B := Fixture.bs4 Fixture.parse in
  let N := Fixture.net Fixture.table in
  let P := Fixture.platform Fixture.now in
  let config :=
    {| cfg_base_url := "http://x/list";
       cfg_start_page := 1; cfg_end_page := 1;
       cfg_link_base := "http://x";
       cfg_pagination := None;
       cfg_field_selectors := [("title", "h2.title"); ("url", "a.item[href]")];
       cfg_enrich := Some true; cfg_enrich_column := None;
       cfg_enrich_selectors := Some ["article p"];
       cfg_save_strategy := "csv";
       cfg_output_name := "run" |} in
  exists w',
    main config Fixture.w0 = (Raise (KeyError "link"), w')
    /\ requested (trace w') = ["http://x/list"]
    /\ files w' = [].
Proof.
  intros B N P config.
  destruct (main_enrichment_misconfigured B N P config Fixture.w0 eq_refl)
    as (w' & Hrun & Hreq & _ & Hfiles).
  - discriminate.
  - reflexivity.
  - right. reflexivity.
  - exists w'. split; [exact Hrun|]. split; [exact Hreq | exact Hfiles].
Defined.

(** X16: when pagination is absent from the configuration, or false, and
    enrichment is off, [main] sends exactly one request, to the base URL
    without its trailing slashes, whatever the page range, the selectors
    and the strategy are and however the run ends. *)
Theorem main_without_pagination_requests_once (B : Bs4) (N : Requests)
    (P : Platform) (config : Config) (w : World) :
  get_default (cfg_pagination config) false = false ->
  get_default (cfg_enrich config) false = false ->
  requested (trace (snd (main config w)))
  = (requested (trace w) ++ [Py.rstrip "/" (cfg_base_url config)])%list.
Proof.
  intros Hp Henrich. unfold main. cbv zeta. rewrite Hp, Henrich.
  rewrite bind_print.
  rewrite bind_then_offline.
  - rewrite scrape_listing_data_single by reflexivity.
    cbn [trace base_url GenericScraper_init]. rewrite requested_app.
    cbn [requested]. now rewrite app_nil_r.
  - intros data.
    apply offline_bind; [apply offline_create_dataframe|]. intros df.
    apply offline_bind; [apply offline_ret|]. intros df'.
    apply offline_bind; [apply offline_print|]. intros _.
    apply offline_bind; [apply offline_get_saver|]. intros saver.
    apply save_offline.
Qed.

Lemma main_without_pagination_requests_once_witness :
  let B := Fixture.bs4 Fixture.parse in
  let N := Fixture.net Fixture.table in
  let P := Fixture.platform Fixture.now in
  let config :=
    {| cfg_base_url := "http://x/list//";
       cfg_start_page := 3; cfg_end_page := 9;
       cfg_link_base := "http://x";
       cfg_pagination := None;
       cfg_field_selectors := [];
       cfg_enrich := None; cfg_enrich_column := None;
       cfg_enrich_selectors := None;
       cfg_save_strategy := "yaml";
       cfg_output_name := "run" |} in
  requested (trace (snd (main config Fixture.w0))) = ["http://x/list"].
Proof.
  intros B N P config.
  exact (main_without_pagination_requests_once B N P config Fixture.w0
           eq_refl eq_refl).
Defined.

(** ** The pipeline of [pipeline_factory.py] *)

(** X17: a pipeline made by the factory over at least one field, run
    without enrichment on a frame the serialiser accepts, requests the
    pages of the Pager and nothing else and writes one file, the
    serialised frame of the scrape, at the path of its strategy for the
    given name and the time read when the save starts. *)
Theorem pipeline_saves_scraped_frame (B : Bs4) (N : Requests) (P : Platform)
    (scraper : GenericScraper) (fields : dict string) (strategy : SaveStrategy)
    (name content : string) (w : World) :
  distinct (keys fields) = true ->
  fields <> [] ->
  serialiser strategy (listing_frame scraper fields (sent w)) = Ok content ->
  exists t w',
    ToolPipeline_run (create_pipeline scraper fields strategy) false name w
    = (Ok tt, w')
    /\ files w'
       = dict_set (files w) (output_path strategy name (datetime_now t)) content
    /\ trace w'
       = (t ++ [Print (saved_message strategy
                         (output_path strategy name (datetime_now t)))])%list
    /\ requested (trace w') = (requested (trace w) ++ page_urls scraper)%list.
Proof.
  intros Hd Hne Hser. apply distinct_NoDup in Hd.
  destruct (scrape_frame_run scraper fields w Hd Hne)
    as (w1 & Hscrape & Hreq & Hdirs & Hfiles & Hsent).
  pose proof (create_dataframe_listing scraper fields (sent w) w1 Hd Hne)
    as Hframe.
  exists (trace w1). eexists.
  split; [|split; [|split]].
  - unfold ToolPipeline_run, create_pipeline.
    cbn [scrape_func pl_scraper pl_strategy].
    rewrite (bind_ok _ _ _ _ _ Hscrape).
    rewrite (bind_ok _ _ _ _ _ Hframe).
    rewrite (bind_ok (ret _) _ _ _ _ eq_refl).
    apply (save_run strategy _ name content w1 Hser).
  - cbn [files]. now rewrite Hfiles.
  - reflexivity.
  - cbn [trace]. rewrite requested_app, Hreq. cbn [requested].
    now rewrite app_nil_r.
Qed.

Lemma pipeline_saves_scraped_frame_witness :
  let B := Fixture.bs4 Fixture.parse in
  let N := Fixture.net Fixture.table in
  let P := Fixture.platform Fixture.now in
  exists w',
    ToolPipeline_run (create_pipeline Fixture.scraper Fixture.fields JsonStrategy)
      false "output" Fixture.w0 = (Ok tt, w')
    /\ files w' = [("outputs/json/output_20261103_1005.json", "json")]
    /\ requested (trace w') = ["http://x/list"].
Proof.
  intros B N P.
  destruct (pipeline_saves_scraped_frame B N P Fixture.scraper Fixture.fields
              JsonStrategy "output" "json" Fixture.w0 eq_refl)
    as (t & w' & Hrun & Hfiles & _ & Hreq).
  - discriminate.
  - reflexivity.
  - exists w'. split; [exact Hrun|]. split; [exact Hfiles | exact Hreq].
Defined.

(** X18: a pipeline run with enrichment over fields that name no field
    "link" stops with [KeyError] on "link" after the whole scrape: every
    page has been requested, no detail page has, and nothing is saved. *)
Theorem pipeline_enrichment_needs_link (B : Bs4) (N : Requests) (P : Platform)
    (scraper : GenericScraper) (fields : dict string) (strategy : SaveStrategy)
    (name : string) (w : World) :
  distinct (keys fields) = true ->
  fields <> [] ->
  existsb (String.eqb "link") (keys fields) = false ->
  exists w',
    ToolPipeline_run (create_pipeline scraper fields strategy) true name w
    = (Raise (KeyError "link"), w')
    /\ requested (trace w') = (requested (trace w) ++ page_urls scraper)%list
    /\ dirs w' = dirs w /\ files w' = files w.
Proof.
  intros Hd Hne Hlink. apply distinct_NoDup in Hd.
  destruct (scrape_frame_run scraper fields w Hd Hne)
    as (w1 & Hscrape & Hreq & Hdirs & Hfiles & Hsent).
  pose proof (create_dataframe_listing scraper fields (sent w) w1 Hd Hne)
    as Hframe.
  exists w1. split; [|auto].
  unfold ToolPipeline_run, create_pipeline.
  cbn [scrape_func pl_scraper pl_strategy].
  rewrite (bind_ok _ _ _ _ _ Hscrape).
  rewrite (bind_ok _ _ _ _ _ Hframe).
  apply bind_raise. apply enrich_without_link_column_run.
  unfold listing_frame, listing_data. cbn [columns].
  rewrite keys_map_values. exact Hlink.
Qed.

Lemma pipeline_enrichment_needs_link_witness :
  let B := Fixture.bs4 Fixture.parse in
  let N := Fixture.net Fixture.table in
  let P := Fixture.platform Fixture.now in
  exists w',
    ToolPipeline_run
      (create_pipeline Fixture.scraper
         [("title", "h2.title"); ("url", "a.item[href]")] CsvStrategy)
      true "output" Fixture.w0
    = (Raise (KeyError "link"), w')
    /\ files w' = [].
Proof.
  intros B N P.
  destruct (pipeline_enrichment_needs_link B N P Fixture.scraper
              [("title", "h2.title"); ("url", "a.item[href]")] CsvStrategy
              "output" Fixture.w0 eq_refl)
    as (w' & Hrun & _ & _ & Hfiles).
  - discriminate.
  - reflexivity.
  - exists w'. split; [exact Hrun | exact Hfiles].
Defined.

(** X19: with enrichment on, selectors for it, a field "link" whose
    scraped column holds strings only, a supported strategy and a frame
    the serialiser accepts, [main] succeeds: after the pages of the Pager
    it requests the detail page of every row, in row order, and it saves
    the scraped frame with the enriched column, named by [enrich_column]
    or "content" when that key is absent. *)
Theorem main_enriches_then_saves (B : Bs4) (N : Requests) (P : Platform)
    (config : Config) (saver : SaveStrategy) (selectors : list string)
    (sel : string) (links : list string) (content : string) (w : World) :
  let scraper :=
    GenericScraper_init (cfg_base_url config) (cfg_start_page config)
      (cfg_end_page config) default_page_param (cfg_link_base config)
      (get_default (cfg_pagination config) false) in
  let fs := cfg_field_selectors config in
  let df :=
    df_setitem (listing_frame scraper fs (sent w))
      (get_default (cfg_enrich_column config) "content")
      (enriched_cells scraper selectors None
         (sent w + length (pages scraper)) links) in
  distinct (keys fs) = true ->
  get_default (cfg_enrich config) false = true ->
  cfg_enrich_selectors config = Some selectors ->
  In ("link", sel) fs ->
  listing_column scraper fs (sent w) (pages scraper) sel = map Some links ->
  strategy_named (cfg_save_strategy config) = Some saver ->
  serialiser saver df = Ok content ->
  exists t w',
    main config w = (Ok tt, w')
    /\ files w'
       = dict_set (files w)
           (output_path saver (cfg_output_name config) (datetime_now t)) content
    /\ trace w'
       = (t ++ [Print (saved_message saver
                         (output_path saver (cfg_output_name config)
                            (datetime_now t)))])%list
    /\ requested (trace w')
       = (requested (trace w) ++ page_urls scraper
            ++ map (full_url scraper) links)%list.
Proof.
  intros scraper fs df Hd Henrich Hsel Hlink Hcol Hname Hser.
  apply distinct_NoDup in Hd.
  assert (Hne : fs <> []) by (intros E; rewrite E in Hlink; exact Hlink).
  set (w0 := mkWorld (trace w ++ [Print "📰 Scraping listing page..."])
                     (sent w) (dirs w) (files w)).
  destruct (scrape_frame_run scraper fs w0 Hd Hne)
    as (w1 & Hscrape & Hreq & Hdirs & Hfiles & Hsent).
  pose proof (create_dataframe_listing scraper fs (sent w0) w1 Hd Hne) as Hframe.
  set (w1' := mkWorld
                (trace w1 ++ [Print "📄 Enriching with full article content..."])
                (sent w1) (dirs w1) (files w1)).
  destruct (enrich_run scraper (listing_frame scraper fs (sent w0))
              (get_default (cfg_enrich_column config) "content") selectors None
              "link" links w1') as (w2 & Henr & Hreq2).
  { unfold listing_frame, listing_data. cbn [columns].
    rewrite <- Hcol.
    apply (dict_get_map_values
             (fun kv => listing_column scraper fs (sent w0) (pages scraper) (snd kv))
             fs ("link", sel) Hd Hlink). }
  destruct (network_only_enrich scraper (listing_frame scraper fs (sent w0))
              (get_default (cfg_enrich_column config) "content") selectors None
              "link" w1') as (t2 & _ & Hd2 & Hf2).
  rewrite Henr in Hd2, Hf2. cbn [snd] in Hd2, Hf2.
  assert (Hdf : df_setitem (listing_frame scraper fs (sent w0))
                  (get_default (cfg_enrich_column config) "content")
                  (enriched_cells scraper selectors None (sent w1') links)
                = df).
  { unfold df. cbn [sent w1' w0]. now rewrite Hsent. }
  rewrite Hdf in Henr.
  set (w3 := mkWorld
               (trace w2 ++ [Print ("✅ Extracted "
                                      ++ Py.str_of_int (Z.of_nat (nrows df))
                                      ++ " records")])
               (sent w2) (dirs w2) (files w2)).
  exists (trace w3). eexists.
  split; [|split; [|split]].
  - unfold main. cbv zeta. fold scraper. fold fs.
    rewrite bind_print. fold w0.
    rewrite (bind_ok _ _ _ _ _ Hscrape).
    rewrite (bind_ok _ _ _ _ _ Hframe).
    rewrite Henrich, Hsel.
    rewrite bind_assoc, bind_print. fold w1'.
    rewrite bind_assoc.
    rewrite (bind_ok (ret _) _ _ _ _ eq_refl).
    rewrite (bind_ok _ _ _ _ _ Henr).
    rewrite bind_print. fold w3.
    rewrite (bind_ok (get_saver _) _ w3 saver w3)
      by (rewrite get_saver_named, Hname; reflexivity).
    apply (save_run saver df (cfg_output_name config) content w3 Hser).
  - cbn [files w3]. rewrite Hf2. cbn [files w1']. now rewrite Hfiles.
  - reflexivity.
  - cbn [trace w3]. rewrite !requested_app, Hreq2. cbn [trace w1'].
    rewrite requested_app, Hreq. cbn [requested trace w0].
    rewrite requested_app. cbn [requested].
    now rewrite !app_nil_r, <- !app_assoc.
Qed.

Lemma main_enriches_then_saves_witness :
  let B := Fixture.bs4 Fixture.parse in
  let N := Fixture.net Fixture.table in
  let P := Fixture.platform Fixture.now in
  let config :=
    {| cfg_base_url := "http://x/list";
       cfg_start_page := 1; cfg_end_page := 1;
       cfg_link_base := "http://x/";
       cfg_pagination := None;
       cfg_field_selectors := Fixture.fields;
       cfg_enrich := Some true; cfg_enrich_column := Some "body";
       cfg_enrich_selectors := Some ["article p"];
       cfg_save_strategy := "xml";
       cfg_output_name := "run" |} in
  exists w',
    main config Fixture.w0 = (Ok tt, w')
    /\ files w' = [("outputs/xml/run_20261103_1005.xml", "xml")]
    /\ requested (trace w')
       = ["http://x/list"; "http://x/d1"; "http://y/d2"; "http://x/d3"].
Proof.
  intros B N P config.
  destruct (main_enriches_then_saves B N P config XmlStrategy ["article p"]
              "a.item[href]" ["/d1"; "http://y/d2"; "/d3"] "xml" Fixture.w0
              eq_refl eq_refl eq_refl)
    as (t & w' & Hrun & Hfiles & _ & Hreq).
  - simpl. auto.
  - reflexivity.
  - reflexivity.
  - reflexivity.
  - exists w'. split; [exact Hrun|]. split; [exact Hfiles | exact Hreq].
Defined.
